(** * Live attendance server: the WebSocket session protocol and POST /attendance/start

    A shallow embedding of [src/http/index.ts] (the [/ws] message handler,
    [broadcast], [sendError], the [/attendance/start] route), of the two
    middlewares it is mounted behind, and of the Mongoose schemas of
    [src/http/model.ts] that the handler reads and writes.

    Conventions of the embedding.
    - The process-wide variables [activeSession] and [allWs], the two
      collections the handler touches and the frames written to the sockets
      form one record, [Server]; handlers are computations of the
      state-and-exception monad [M] over it.
    - [activeSession.attendance] is a plain JavaScript object used as a
      dictionary.  Its own enumerable properties are a [gmap string string];
      property assignment and property read go through [js_set] and [js_get],
      which keep what [Object.prototype] does to a plain object.
    - Library calls the code makes are either written out from what the
      source declares ([attendanceSchema], the [Role] and [AttendanceStatus]
      enums) or taken from the record [Runtime] ([JSON.stringify],
      Mongoose's cast of a string to an ObjectId, [jwt.verify]).
    - An [await] is a sequencing point only: one handler runs from start to
      end on the state it finds. *)

From Stdlib Require Import String Ascii List NArith Lia Bool DecimalString.
From stdpp Require Import base option list gmap fin_maps strings.

Local Open Scope string_scope.

(** ** Identifiers and enumerations *)

(** [types.ts]: [enum Role { TEACHER = "teacher", STUDENT = "student" }]. *)
Inductive Role : Type := TEACHER | STUDENT.

#[global] Instance Role_eq_dec : EqDecision Role.
Proof. solve_decision. Defined.

(** [types.ts]: [enum AttendanceStatus { PRESENT = "present", ABSENT = "absent" }];
    the list is [Object.values(AttendanceStatus)]. *)
Definition PRESENT : string := "present".
Definition ABSENT : string := "absent".
Definition AttendanceStatus_values : list string := [PRESENT; ABSENT].

(** A MongoDB ObjectId is a 96-bit value; only its low 96 bits are ever
    rendered. *)
Definition ObjectId : Type := N.

Definition hexDigit (d : N) : ascii :=
  match d with
  | 0 => "0" | 1 => "1" | 2 => "2" | 3 => "3" | 4 => "4" | 5 => "5"
  | 6 => "6" | 7 => "7" | 8 => "8" | 9 => "9" | 10 => "a" | 11 => "b"
  | 12 => "c" | 13 => "d" | 14 => "e" | _ => "f"
  end%N%char.

Fixpoint hexString (digits : nat) (n : N) (acc : string) : string :=
  match digits with
  | O => acc
  | S k => hexString k (n / 16)%N (String (hexDigit (n mod 16)%N) acc)
  end.

(** [ObjectId.prototype.toString]: 24 lower-case hexadecimal digits. *)
Definition oid_toString (o : ObjectId) : string := hexString 24 o EmptyString.

Arguments oid_toString : simpl never.

(** ** JavaScript values that reach [JSON.stringify] or a response body *)

#[warnings="-register-all"] Inductive JsValue : Type :=
  | VString (s : string)
  | VNumber (n : nat)
  | VBool (b : bool)
  | VBuiltin (name : string)   (* a member inherited from Object.prototype *)
  | VObject (fields : list (string * JsValue)).

(** ** A plain object used as a dictionary *)

(** The names a plain object inherits from [Object.prototype]. *)
Definition Object_prototype_names : list string :=
  [ "constructor"; "__defineGetter__"; "__defineSetter__"; "hasOwnProperty";
    "__lookupGetter__"; "__lookupSetter__"; "isPrototypeOf";
    "propertyIsEnumerable"; "toString"; "valueOf"; "__proto__";
    "toLocaleString" ].

(** The result of [o[k]] on such an object. *)
Inductive PropertyRead : Type :=
  | Own (v : string)
  | Inherited (name : string)
  | Undefined.

Definition js_get (o : gmap string string) (k : string) : PropertyRead :=
  match o !! k with
  | Some v => Own v
  | None => if bool_decide (k ∈ Object_prototype_names) then Inherited k
            else Undefined
  end.

(** [o[k] = v] with [v] a string: an own property is created or
    overwritten, except that [__proto__] is the accessor of
    [Object.prototype], whose setter ignores a value that is not an object. *)
Definition js_set (o : gmap string string) (k v : string) : gmap string string :=
  if bool_decide (k = "__proto__") then o else <[k := v]> o.

(** JavaScript truthiness of a property read: the empty string and
    [undefined] are falsy. *)
Definition truthy (r : PropertyRead) : bool :=
  match r with
  | Own v => negb (bool_decide (v = EmptyString))
  | Inherited _ => true
  | Undefined => false
  end.

(** [Object.entries] and [Object.values]: the own properties, in some
    order.  The enumeration order of JavaScript is not kept; nothing below
    depends on it. *)
Definition Object_entries (o : gmap string string) : list (string * string) :=
  map_to_list o.

Definition Object_values (o : gmap string string) : list string :=
  (map_to_list o).*2.

(** [values.filter((s) => s === status).length] *)
Definition countStatus (status : string) (values : list string) : nat :=
  length (filter (λ s, s = status) values).

(** ** The server's state *)

(** [ws.user = { userId, role }], the payload of a verified token.  The
    payload's [userId] is the string of a MongoDB ObjectId ([/auth/login]
    signs [user._id.toString()]); the record keeps the ObjectId and
    [req_userId] gives the string. *)
Record User : Type := { userId : ObjectId; role : Role }.

Definition req_userId (u : User) : string := oid_toString (userId u).

(** What [w.send(payload)] does on a socket (the sockets are [any]-typed):
    it writes the frame, or fails without raising, or raises. *)
Inductive SendBehaviour : Type := Delivers | Drops | Throws.

Record WebSocket : Type :=
  { wsId : nat; user : User; onSend : SendBehaviour }.

(** [let activeSession: { classId; startedAt; attendance } | null]. *)
Record Session : Type :=
  { classId : string; startedAt : string; attendance : gmap string string }.

(** [classSchema] and [attendanceSchema] of [model.ts]. *)
Record ClassDoc : Type :=
  { _id : ObjectId; className : string; teacherId : option ObjectId;
    studentIds : list ObjectId }.

Record AttendanceDoc : Type :=
  { doc_classId : ObjectId; doc_studentId : ObjectId; doc_status : string }.

(** The object literal [{ classId, studentId, status }] built by the DONE case. *)
Record AttendanceRecord : Type :=
  { rec_classId : string; rec_studentId : string; rec_status : string }.

Record Server : Type :=
  { activeSession : option Session;
    allWs : list WebSocket;
    Classes : list ClassDoc;            (* the Classes collection *)
    Attendances : list AttendanceDoc;   (* the Attendances collection *)
    wire : list (nat * string) }.       (* frames written, by socket, oldest first *)

Definition set_activeSession (s : option Session) (σ : Server) : Server :=
  {| activeSession := s; allWs := allWs σ; Classes := Classes σ;
     Attendances := Attendances σ; wire := wire σ |}.

Definition set_Attendances (docs : list AttendanceDoc) (σ : Server) : Server :=
  {| activeSession := activeSession σ; allWs := allWs σ; Classes := Classes σ;
     Attendances := docs; wire := wire σ |}.

Definition push_wire (frame : nat * string) (σ : Server) : Server :=
  {| activeSession := activeSession σ; allWs := allWs σ; Classes := Classes σ;
     Attendances := Attendances σ; wire := wire σ ++ [frame] |}.

Definition set_attendance (a : gmap string string) (s : Session) : Session :=
  {| classId := classId s; startedAt := startedAt s; attendance := a |}.

(** ** Inbound frames and HTTP requests *)

Record MarkData : Type := { studentId : string; status : string }.

(** The parsed envelope [{ event, data }]; [data] is [None] when the
    envelope has no [data] to destructure. *)
Record Message : Type := { event : string; data : option MarkData }.

(** [JSON.parse(msg.toString())] raises, or yields [null], or an envelope. *)
Inductive Frame : Type :=
  | Unparseable
  | JsonNull
  | Parsed (message : Message).

Record Request : Type := { authorization : option string; body : JsValue }.
Record Response : Type := { statusCode : nat; json : JsValue }.

(** ** What the code takes from its libraries *)

Record Runtime : Type :=
  { JSON_stringify : JsValue → string;
    castObjectId : string → option ObjectId;   (* Mongoose's cast to ObjectId *)
    jwt_verify : string → option User }.       (* [None]: verification raises *)

(** ** Handlers as state-and-exception computations *)

Inductive Exn : Type := TypeError | CastError | ValidationError | SendFailure.

Definition M (A : Type) : Type := Server → (Exn + A) * Server.

Definition ret {A} (a : A) : M A := λ σ, (inr a, σ).

Definition throw {A} (e : Exn) : M A := λ σ, (inl e, σ).

Definition bind {A B} (m : M A) (k : A → M B) : M B :=
  λ σ, match m σ with
       | (inl e, σ') => (inl e, σ')
       | (inr a, σ') => k a σ'
       end.

Notation "x <- m ;; k" := (bind m (λ x, k))
  (at level 100, m at next level, right associativity).

Definition update (f : Server → Server) : M unit := λ σ, (inr tt, f σ).

(** [l.forEach(f)]: in order, stopping at the first exception. *)
Fixpoint forEach {A} (f : A → M unit) (l : list A) : M unit :=
  match l with
  | [] => ret tt
  | x :: rest => _ <- f x ;; forEach f rest
  end.

Definition ws_send (w : WebSocket) (payload : string) : M unit :=
  match onSend w with
  | Delivers => update (push_wire (wsId w, payload))
  | Drops => ret tt
  | Throws => throw SendFailure
  end.

(** ** The code of [index.ts] *)

(** The three counts that the TODAY_SUMMARY and DONE cases compute from
    [Object.values(activeSession.attendance)]. *)
Record Summary : Type := { present : nat; absent : nat; total : nat }.

Definition summarize (att : gmap string string) : Summary :=
  let attendanceValues := Object_values att in
  {| present := countStatus "present" attendanceValues;
     absent := countStatus "absent" attendanceValues;
     total := length attendanceValues |}.

Definition errorMessage (message : string) : JsValue :=
  VObject [("event", VString "ERROR");
           ("data", VObject [("message", VString message)])].

Definition markedMessage (d : MarkData) : JsValue :=
  VObject [("event", VString "ATTENDANCE_MARKED");
           ("data", VObject [("studentId", VString (studentId d));
                             ("status", VString (status d))])].

Definition summaryMessage (s : Summary) : JsValue :=
  VObject [("event", VString "TODAY_SUMMARY");
           ("data", VObject [("present", VNumber (present s));
                             ("absent", VNumber (absent s));
                             ("total", VNumber (total s))])].

(** [studentStatus || "not yet updated"] *)
Definition orNotYetUpdated (studentStatus : PropertyRead) : JsValue :=
  match studentStatus with
  | Own v => if truthy studentStatus then VString v else VString "not yet updated"
  | Inherited name => VBuiltin name
  | Undefined => VString "not yet updated"
  end.

Definition myAttendanceMessage (studentStatus : PropertyRead) : JsValue :=
  VObject [("event", VString "MY_ATTENDANCE");
           ("data", VObject [("status", orNotYetUpdated studentStatus)])].

Definition doneMessage (s : Summary) : JsValue :=
  VObject [("event", VString "DONE");
           ("data", VObject [("message", VString "Attendance persisted");
                             ("present", VNumber (present s));
                             ("absent", VNumber (absent s));
                             ("total", VNumber (total s))])].

(** The loop of the DONE case over [classRoom.studentIds]. *)
Definition markAbsentIfUnmarked (att : gmap string string) (studentId : ObjectId)
  : gmap string string :=
  let studentIdStr := oid_toString studentId in
  if negb (truthy (js_get att studentIdStr))
  then js_set att studentIdStr "absent"
  else att.

Definition markUnmarkedAbsent (att : gmap string string) (roster : list ObjectId)
  : gmap string string :=
  foldl markAbsentIfUnmarked att roster.

Definition attendanceRecords (classId : string) (att : gmap string string)
  : list AttendanceRecord :=
  map (λ '(studentId, status),
         {| rec_classId := classId; rec_studentId := studentId;
            rec_status := status |})
      (Object_entries att).

(** [const token = authHeader?.startsWith("Bearer ") ? authHeader.split(" ")[1] : authHeader] *)
Fixpoint upToSpace (s : string) : string :=
  match s with
  | EmptyString => EmptyString
  | String c rest => if Ascii.eqb c " "%char then EmptyString
                     else String c (upToSpace rest)
  end.

Definition headerToken (authHeader : option string) : option string :=
  match authHeader with
  | None => None
  | Some h => if String.prefix "Bearer " h
              then Some (upToSpace (String.substring 7 (String.length h - 7) h))
              else Some h
  end.

Definition failure (code : nat) (error : string) : Response :=
  {| statusCode := code;
     json := VObject [("success", VBool false); ("error", VString error)] |}.

(** [field k o] is [o[k]] on a parsed JSON value. *)
Fixpoint field (k : string) (fields : list (string * JsValue)) : option JsValue :=
  match fields with
  | [] => None
  | (k', v) :: rest => if String.eqb k k' then Some v else field k rest
  end.

(** [startAttendanceSchema = z.object({ classId: z.string() })], [safeParse]. *)
Definition startAttendanceSchema_safeParse (body : JsValue) : option string :=
  match body with
  | VObject fields =>
      match field "classId" fields with
      | Some (VString classId) => Some classId
      | _ => None
      end
  | _ => None
  end.

Section Handlers.

Variable rt : Runtime.

(** [function broadcast(message)] *)
Definition broadcast (message : JsValue) : M unit :=
  λ σ,
    let payload := JSON_stringify rt message in
    forEach (λ w, ws_send w payload) (allWs σ) σ.

(** [function sendError(ws, message)] *)
Definition sendError (ws : WebSocket) (message : string) : M unit :=
  ws_send ws (JSON_stringify rt (errorMessage message)).

(** [ClassModel.findById(id)]: the id is cast to an ObjectId (a string
    that cannot be cast rejects the query), then looked up by [_id]. *)
Definition ClassModel_findById (id : string) : M (option ClassDoc) :=
  λ σ,
    match castObjectId rt id with
    | None => (inl CastError, σ)
    | Some o => (inr (find (λ c, bool_decide (_id c = o)) (Classes σ)), σ)
    end.

(** A document built from a record under [attendanceSchema]: both ids are
    cast to ObjectId and [status] must be one of
    [Object.values(AttendanceStatus)]. *)
Definition attendanceSchema_cast (r : AttendanceRecord) : option AttendanceDoc :=
  match castObjectId rt (rec_classId r), castObjectId rt (rec_studentId r) with
  | Some c, Some s =>
      if bool_decide (rec_status r ∈ AttendanceStatus_values)
      then Some {| doc_classId := c; doc_studentId := s;
                   doc_status := rec_status r |}
      else None
  | _, _ => None
  end.

(** [AttendanceModel.insertMany(records)]: every record is validated
    first; one invalid record rejects the call and nothing is saved. *)
Definition AttendanceModel_insertMany (records : list AttendanceRecord) : M unit :=
  λ σ,
    match mapM attendanceSchema_cast records with
    | Some docs => (inr tt, set_Attendances (Attendances σ ++ docs) σ)
    | None => (inl ValidationError, σ)
    end.

Definition case_ATTENDANCE_MARKED (ws : WebSocket) (message : Message) : M unit :=
  λ σ,
    if bool_decide (role (user ws) ≠ TEACHER)
    then sendError ws "Forbidden, teacher event only" σ
    else match activeSession σ with
         | None => sendError ws "No active attendance session" σ
         | Some session =>
             match data message with
             | None => throw TypeError σ
             | Some d =>
                 let att := js_set (attendance session) (studentId d) (status d) in
                 broadcast (markedMessage d)
                   (set_activeSession (Some (set_attendance att session)) σ)
             end
         end.

Definition case_TODAY_SUMMARY (ws : WebSocket) : M unit :=
  λ σ,
    if bool_decide (role (user ws) ≠ TEACHER)
    then sendError ws "Forbidden, teacher event only" σ
    else match activeSession σ with
         | None => sendError ws "No active attendance session" σ
         | Some session => broadcast (summaryMessage (summarize (attendance session))) σ
         end.

Definition case_MY_ATTENDANCE (ws : WebSocket) : M unit :=
  λ σ,
    if bool_decide (role (user ws) ≠ STUDENT)
    then sendError ws "Forbidden, student event only" σ
    else match activeSession σ with
         | None => sendError ws "No active attendance session" σ
         | Some session =>
             let studentStatus := js_get (attendance session) (req_userId (user ws)) in
             ws_send ws (JSON_stringify rt (myAttendanceMessage studentStatus)) σ
         end.

(** The DONE case after its two guards.  The attendance object is updated
    in place, so the defaults are in [activeSession] before the write. *)
Definition finalizeSession (session : Session) : M unit :=
  classRoom <- ClassModel_findById (classId session) ;;
  let att := match classRoom with
             | Some c => markUnmarkedAbsent (attendance session) (studentIds c)
             | None => attendance session
             end in
  _ <- update (set_activeSession (Some (set_attendance att session))) ;;
  let records := attendanceRecords (classId session) att in
  _ <- (if bool_decide (0 < length records)
        then AttendanceModel_insertMany records
        else ret tt) ;;
  let final := summarize att in
  _ <- update (set_activeSession None) ;;
  broadcast (doneMessage final).

Definition case_DONE (ws : WebSocket) : M unit :=
  λ σ,
    if bool_decide (role (user ws) ≠ TEACHER)
    then sendError ws "Forbidden, teacher event only" σ
    else match activeSession σ with
         | None => sendError ws "No active attendance session" σ
         | Some session => finalizeSession session σ
         end.

(** [ws.on("message", async (msg) => ...)] *)
Definition onMessage (ws : WebSocket) (msg : Frame) : M unit :=
  match msg with
  | Unparseable => sendError ws "Invalid message format"
  | JsonNull => throw TypeError
  | Parsed message =>
      if String.eqb (event message) "ATTENDANCE_MARKED"
      then case_ATTENDANCE_MARKED ws message
      else if String.eqb (event message) "TODAY_SUMMARY"
      then case_TODAY_SUMMARY ws
      else if String.eqb (event message) "MY_ATTENDANCE"
      then case_MY_ATTENDANCE ws
      else if String.eqb (event message) "DONE"
      then case_DONE ws
      else sendError ws "Unknown event"
  end.

(** The server after one inbound frame, whether the handler returned or
    rejected. *)
Definition deliver (σ : Server) (input : WebSocket * Frame) : Server :=
  snd (onMessage (fst input) (snd input) σ).

(** [authMiddleware] then [teacherRoleMiddleware]: the response that ends
    the request, or the user the route runs for. *)
Definition authMiddleware (req : Request) : Response + User :=
  match headerToken (authorization req) with
  | None => inl (failure 401 "Unauthorized, token missing or invalid")
  | Some token =>
      if bool_decide (token = EmptyString)
      then inl (failure 401 "Unauthorized, token missing or invalid")
      else match jwt_verify rt token with
           | Some u => inr u
           | None => inl (failure 401 "Unauthorized, token missing or invalid")
           end
  end.

Definition teacherRoleMiddleware (u : User) : Response + User :=
  if bool_decide (role u ≠ TEACHER)
  then inl (failure 403 "Forbidden, teacher access required")
  else inr u.

(** The route function of [POST /attendance/start]; [now] is
    [new Date().toISOString()]. *)
Definition attendance_start_route (now : string) (u : User) (req : Request)
  : M Response :=
  match startAttendanceSchema_safeParse (body req) with
  | None => ret (failure 400 "Invalid request schema")
  | Some classId =>
      classRoom <- ClassModel_findById classId ;;
      match classRoom with
      | None => ret (failure 404 "Class not found")
      | Some c =>
          if bool_decide (oid_toString <$> teacherId c ≠ Some (req_userId u))
          then ret (failure 403 "Forbidden, not class teacher")
          else
            let startedAt := now in
            _ <- update (set_activeSession
                           (Some {| classId := oid_toString (_id c);
                                    startedAt := startedAt;
                                    attendance := ∅ |})) ;;
            ret {| statusCode := 200;
                   json := VObject
                     [("success", VBool true);
                      ("data", VObject [("classId", VString (oid_toString (_id c)));
                                        ("startedAt", VString startedAt)])] |}
      end
  end.

Definition post_attendance_start (now : string) (req : Request) : M Response :=
  match authMiddleware req with
  | inl response => ret response
  | inr u =>
      match teacherRoleMiddleware u with
      | inl response => ret response
      | inr u => attendance_start_route now u req
      end
  end.

End Handlers.

(** ** Vocabulary of the properties *)

Definition append_wire (frames : list (nat * string)) (σ : Server) : Server :=
  {| activeSession := activeSession σ; allWs := allWs σ; Classes := Classes σ;
     Attendances := Attendances σ; wire := wire σ ++ frames |}.

Definition raises (w : WebSocket) : bool :=
  match onSend w with Throws => true | _ => false end.

Definition delivers (w : WebSocket) : bool :=
  match onSend w with Delivers => true | _ => false end.

(** The sockets a [forEach] over [l] gets to: those before the first one
    whose [send] raises. *)
Fixpoint beforeFirstRaise (l : list WebSocket) : list WebSocket :=
  match l with
  | [] => []
  | w :: rest => if raises w then [] else w :: beforeFirstRaise rest
  end.

(** The frames [payload] leaves on the sockets of [l] that deliver. *)
Definition framesOf (payload : string) (l : list WebSocket) : list (nat * string) :=
  map (λ w, (wsId w, payload)) (List.filter delivers l).

(** The role each protocol event asks for. *)
Definition requiredRole (event : string) : option Role :=
  if String.eqb event "ATTENDANCE_MARKED" then Some TEACHER
  else if String.eqb event "TODAY_SUMMARY" then Some TEACHER
  else if String.eqb event "MY_ATTENDANCE" then Some STUDENT
  else if String.eqb event "DONE" then Some TEACHER
  else None.

Definition forbidden (r : Role) : string :=
  match r with
  | TEACHER => "Forbidden, teacher event only"
  | STUDENT => "Forbidden, student event only"
  end.

Definition markFrame (d : MarkData) : Frame :=
  Parsed {| event := "ATTENDANCE_MARKED"; data := Some d |}.

Definition eventFrame (name : string) : Frame :=
  Parsed {| event := name; data := None |}.



(** The attendance object of the active session (empty when there is none). *)
Definition attendanceOf (σ : Server) : gmap string string :=
  match activeSession σ with
  | Some session => attendance session
  | None => ∅
  end.

(** The students named by a list of Mark payloads. *)
Definition studentsMarked (marks : list (WebSocket * MarkData)) : gset string :=
  list_to_set ((λ e, studentId (snd e)) <$> marks).

Definition markFrames (marks : list (WebSocket * MarkData))
  : list (WebSocket * Frame) :=
  (λ e, (fst e, markFrame (snd e))) <$> marks.

(** The status a self-status request is answered with. *)
Definition selfStatus (att : gmap string string) (key : string) : string :=
  match att !! key with
  | Some v => if bool_decide (v = EmptyString) then "not yet updated" else v
  | None => "not yet updated"
  end.

Definition statusReply (status : string) : JsValue :=
  VObject [("event", VString "MY_ATTENDANCE");
           ("data", VObject [("status", VString status)])].

(** ** A runtime to run the model on *)

Definition hexValue (c : ascii) : option N :=
  let n := N_of_ascii c in
  if ((48 <=? n) && (n <=? 57))%N then Some (n - 48)%N
  else if ((97 <=? n) && (n <=? 102))%N then Some (n - 87)%N
  else if ((65 <=? n) && (n <=? 70))%N then Some (n - 55)%N
  else None.

Fixpoint parseHex (s : string) (acc : N) : option N :=
  match s with
  | EmptyString => Some acc
  | String c rest =>
      match hexValue c with
      | Some d => parseHex rest (16 * acc + d)%N
      | None => None
      end
  end.

(** The cast of a 24-digit hexadecimal string. *)
Definition castHex24 (s : string) : option ObjectId :=
  if Nat.eqb (String.length s) 24 then parseHex s 0%N else None.

Definition quote : string := String (ascii_of_nat 34) EmptyString.

Definition decimal (n : nat) : string := NilZero.string_of_uint (Nat.to_uint n).

(** A printer in the manner of [JSON.stringify], for values whose strings
    need no escape. *)
Fixpoint render (v : JsValue) : string :=
  match v with
  | VString s => quote +:+ s +:+ quote
  | VNumber n => decimal n
  | VBool b => if b then "true" else "false"
  | VBuiltin _ => "null"
  | VObject fields =>
      let fix members (fs : list (string * JsValue)) : string :=
        match fs with
        | [] => EmptyString
        | (k, x) :: rest =>
            quote +:+ k +:+ quote +:+ ":" +:+ render x +:+
            match rest with [] => EmptyString | _ => "," +:+ members rest end
        end in
      "{" +:+ members fields +:+ "}"
  end.

Definition teacher1 : User := {| userId := 1%N; role := TEACHER |}.
Definition student100 : User := {| userId := 256%N; role := STUDENT |}.

Definition verifyToken (token : string) : option User :=
  if String.eqb token "teacher-token" then Some teacher1
  else if String.eqb token "student-token" then Some student100
  else None.

Definition runtime0 : Runtime :=
  {| JSON_stringify := render; castObjectId := castHex24; jwt_verify := verifyToken |}.

Definition teacherWs : WebSocket := {| wsId := 1; user := teacher1; onSend := Delivers |}.
Definition studentWs : WebSocket := {| wsId := 2; user := student100; onSend := Delivers |}.
Definition closedWs : WebSocket := {| wsId := 3; user := student100; onSend := Drops |}.

(** Class c101 with the roster of s100 and s101. *)
Definition c101 : ClassDoc :=
  {| _id := 4097%N; className := "Maths 101"; teacherId := Some 1%N;
     studentIds := [256%N; 257%N] |}.

Definition s100 : string := oid_toString 256%N.
Definition s101 : string := oid_toString 257%N.

Definition lateMark : MarkData := {| studentId := s100; status := "late" |}.
Definition presentMark : MarkData := {| studentId := s100; status := "present" |}.

Definition sessionOf (att : gmap string string) : Session :=
  {| classId := oid_toString 4097%N; startedAt := "2025-03-11T10:00:00.000Z";
     attendance := att |}.

Definition serverWith (session : option Session) (sockets : list WebSocket) : Server :=
  {| activeSession := session; allWs := sockets; Classes := [c101];
     Attendances := []; wire := [] |}.

(** * The rest of [index.ts]

    The connection handler of [/ws], and the routes on classes and on the
    stored attendance.  The routes read the Users collection and never
    write it, so it is an argument, [users]; a route answers either with a
    response that ends the request ([failure], or what a middleware sent) or
    with [res.status(code).json({ success: true, data })], kept as the code
    and the fields of [data]. *)

Definition set_allWs (sockets : list WebSocket) (σ : Server) : Server :=
  {| activeSession := activeSession σ; allWs := sockets; Classes := Classes σ;
     Attendances := Attendances σ; wire := wire σ |}.

Definition set_Classes (classes : list ClassDoc) (σ : Server) : Server :=
  {| activeSession := activeSession σ; allWs := allWs σ; Classes := classes;
     Attendances := Attendances σ; wire := wire σ |}.

(** [userSchema] of [model.ts]. *)
Record UserDoc : Type :=
  { user_id : ObjectId; user_name : string; user_email : string;
    user_password : string; user_role : Role }.

Inductive Answer (A : Type) : Type :=
  | Ended (response : Response)
  | Data (code : nat) (data : A).

Arguments Ended {A} response.
Arguments Data {A} code data.

(** The [data] of the class routes. *)
Record ClassView : Type :=
  { view_id : string; view_className : string; view_teacherId : string;
    view_studentIds : list string }.

(** One element of [students] in [GET /class/:id]; the fallback element
    has an [_id] only. *)
Record StudentView : Type :=
  { student_id : string; student_name : option string;
    student_email : option string }.

Record ClassDetail : Type :=
  { detail_id : string; detail_className : string; detail_teacherId : string;
    detail_students : list StudentView }.

Record MyAttendance : Type :=
  { my_classId : string; my_status : option string }.

(** [x || ""] on a string. *)
Definition orEmpty (x : option string) : string :=
  match x with
  | Some s => s
  | None => EmptyString
  end.

(** [createClassSchema = z.object({ className: z.string().min(1) })]. *)
Definition createClassSchema_safeParse (body : JsValue) : option string :=
  match body with
  | VObject fields =>
      match field "className" fields with
      | Some (VString className) =>
          if bool_decide (1 ≤ String.length className)%nat then Some className
          else None
      | _ => None
      end
  | _ => None
  end.

(** [addStudentToClassSchema = z.object({ studentId: z.string() })]. *)
Definition addStudentToClassSchema_safeParse (body : JsValue) : option string :=
  match body with
  | VObject fields =>
      match field "studentId" fields with
      | Some (VString studentId) => Some studentId
      | _ => None
      end
  | _ => None
  end.

(** [studentIds.some((id) => id.toString() === s)] *)
Definition someIdIs (s : string) (studentIds : list ObjectId) : bool :=
  existsb (λ id, String.eqb (oid_toString id) s) studentIds.

(** [classRoom.save()] after the push: the stored document with the
    [_id] of [c] becomes [c]. *)
Fixpoint saveClass (c : ClassDoc) (classes : list ClassDoc) : list ClassDoc :=
  match classes with
  | [] => []
  | c' :: rest => if bool_decide (_id c' = _id c) then c :: rest
                  else c' :: saveClass c rest
  end.

Definition classView (c : ClassDoc) : ClassView :=
  {| view_id := oid_toString (_id c); view_className := className c;
     view_teacherId := orEmpty (oid_toString <$> teacherId c);
     view_studentIds := oid_toString <$> studentIds c |}.

(** [UserModel.findById(id).lean()] with an ObjectId. *)
Definition userById (users : list UserDoc) (id : ObjectId) : option UserDoc :=
  find (λ u, bool_decide (user_id u = id)) users.

Definition studentView (users : list UserDoc) (id : ObjectId) : StudentView :=
  match userById users id with
  | Some student =>
      {| student_id := oid_toString (user_id student);
         student_name := Some (orEmpty (Some (user_name student)));
         student_email := Some (orEmpty (Some (user_email student))) |}
  | None =>
      {| student_id := oid_toString id; student_name := None;
         student_email := None |}
  end.

Section Routes.

Variable rt : Runtime.

(** [w.send(payload)] on a socket that has no [user] yet. *)
Definition socket_send (id : nat) (behaviour : SendBehaviour) (payload : string)
  : M unit :=
  match behaviour with
  | Delivers => update (push_wire (id, payload))
  | Drops => ret tt
  | Throws => throw SendFailure
  end.

(** [wsApp.ws("/ws", function (ws, req) { ... })] for the socket [id]:
    [token] is [req.query.token] ([None] when the query has none, which
    [jwt.verify] refuses).  The result is the registered socket, or [None]
    after [ws.close()]. *)
Definition onConnection (id : nat) (behaviour : SendBehaviour)
    (token : option string) : M (option WebSocket) :=
  match token ≫= jwt_verify rt with
  | Some payload =>
      let ws := {| wsId := id; user := payload; onSend := behaviour |} in
      _ <- update (λ σ, set_allWs (allWs σ ++ [ws]) σ) ;;
      ret (Some ws)
  | None =>
      _ <- socket_send id behaviour
             (JSON_stringify rt (errorMessage "Unauthorized or invalid token")) ;;
      ret None
  end.

(** [ws.on("close", () => { allWs = allWs.filter((w) => w !== ws) })]; the
    identity of a socket object is its [wsId]. *)
Definition onClose (ws : WebSocket) : M unit :=
  update (λ σ, set_allWs
                 (List.filter (λ w, negb (Nat.eqb (wsId w) (wsId ws))) (allWs σ)) σ).

(** [UserModel.findById(id)] with a string. *)
Definition UserModel_findById (users : list UserDoc) (id : string)
  : M (option UserDoc) :=
  λ σ,
    match castObjectId rt id with
    | None => (inl CastError, σ)
    | Some o => (inr (userById users o), σ)
    end.

(** [ClassModel.create({ className, teacherId: req.userId, studentIds: [] })];
    [newId] is the [_id] the document is given. *)
Definition ClassModel_create (newId : ObjectId) (className : string)
    (teacherId : string) : M ClassDoc :=
  λ σ,
    match castObjectId rt teacherId with
    | None => (inl ValidationError, σ)
    | Some t =>
        let newClass := {| _id := newId; className := className;
                           teacherId := Some t; studentIds := [] |} in
        (inr newClass, set_Classes (Classes σ ++ [newClass]) σ)
    end.

(** The route function of [POST /class]. *)
Definition class_route (newId : ObjectId) (u : User) (req : Request)
  : M (Answer ClassView) :=
  match createClassSchema_safeParse (body req) with
  | None => ret (Ended (failure 400 "Invalid request schema"))
  | Some className =>
      newClass <- ClassModel_create newId className (req_userId u) ;;
      ret (Data 201
             {| view_id := oid_toString (_id newClass);
                view_className := className;
                view_teacherId := orEmpty (oid_toString <$> teacherId newClass);
                view_studentIds := [] |})
  end.

Definition post_class (newId : ObjectId) (req : Request) : M (Answer ClassView) :=
  match authMiddleware rt req with
  | inl response => ret (Ended response)
  | inr u =>
      match teacherRoleMiddleware u with
      | inl response => ret (Ended response)
      | inr u => class_route newId u req
      end
  end.

(** The route function of [POST /class/:id/add-student]; [classId] is
    [req.params.id]. *)
Definition add_student_route (users : list UserDoc) (classId : string)
    (u : User) (req : Request) : M (Answer ClassView) :=
  match addStudentToClassSchema_safeParse (body req) with
  | None => ret (Ended (failure 400 "Invalid request schema"))
  | Some studentId =>
      classRoom <- ClassModel_findById rt classId ;;
      match classRoom with
      | None => ret (Ended (failure 404 "Class not found"))
      | Some c =>
          if bool_decide (oid_toString <$> teacherId c ≠ Some (req_userId u))
          then ret (Ended (failure 403 "Forbidden, not class teacher"))
          else
            checkStudent <- UserModel_findById users studentId ;;
            match checkStudent with
            | None => ret (Ended (failure 404 "Student not found"))
            | Some _ =>
                let studentIdAlreadyExists := someIdIs studentId (studentIds c) in
                _ <- (if negb studentIdAlreadyExists
                      then match castObjectId rt studentId with
                           | None => throw CastError
                           | Some o =>
                               let saved :=
                                 {| _id := _id c; className := className c;
                                    teacherId := teacherId c;
                                    studentIds := studentIds c ++ [o] |} in
                               update (λ σ, set_Classes (saveClass saved (Classes σ)) σ)
                           end
                      else ret tt) ;;
                updatedClassRoom <- ClassModel_findById rt classId ;;
                match updatedClassRoom with
                | None => throw TypeError
                | Some updated => ret (Data 200 (classView updated))
                end
            end
      end
  end.

Definition post_class_add_student (users : list UserDoc) (classId : string)
    (req : Request) : M (Answer ClassView) :=
  match authMiddleware rt req with
  | inl response => ret (Ended response)
  | inr u =>
      match teacherRoleMiddleware u with
      | inl response => ret (Ended response)
      | inr u => add_student_route users classId u req
      end
  end.

(** [GET /class/:id]. *)
Definition get_class (users : list UserDoc) (classId : string) (req : Request)
  : M (Answer ClassDetail) :=
  match authMiddleware rt req with
  | inl response => ret (Ended response)
  | inr u =>
      classRoom <- ClassModel_findById rt classId ;;
      match classRoom with
      | None => ret (Ended (failure 404 "Class not found"))
      | Some c =>
          if bool_decide (oid_toString <$> teacherId c = Some (req_userId u))
             || someIdIs (req_userId u) (studentIds c)
          then ret (Data 200
                      {| detail_id := oid_toString (_id c);
                         detail_className := className c;
                         detail_teacherId := orEmpty (oid_toString <$> teacherId c);
                         detail_students := studentView users <$> studentIds c |})
          else ret (Ended (failure 403 "Forbidden, not class teacher"))
      end
  end.

(** [AttendanceModel.findOne({ classId, studentId })]: both strings are
    cast, and the first matching document of the collection is returned. *)
Definition AttendanceModel_findOne (classId studentId : string)
  : M (option AttendanceDoc) :=
  λ σ,
    match castObjectId rt classId, castObjectId rt studentId with
    | Some c, Some s =>
        (inr (find (λ d, bool_decide (doc_classId d = c)
                         && bool_decide (doc_studentId d = s)) (Attendances σ)), σ)
    | _, _ => (inl CastError, σ)
    end.

(** [GET /class/:id/my-attendance]. *)
Definition get_my_attendance (classId : string) (req : Request)
  : M (Answer MyAttendance) :=
  match authMiddleware rt req with
  | inl response => ret (Ended response)
  | inr u =>
      let userId := req_userId u in
      classRoom <- ClassModel_findById rt classId ;;
      match classRoom with
      | None => ret (Ended (failure 404 "Class not found"))
      | Some c =>
          if negb (someIdIs userId (studentIds c))
          then ret (Ended (failure 403 "Forbidden, not enrolled in class"))
          else
            attendance <- AttendanceModel_findOne classId userId ;;
            ret (Data 200 {| my_classId := classId;
                             my_status := doc_status <$> attendance |})
      end
  end.

End Routes.

(** ** Vocabulary of the further properties *)

(** What an active session may become: it ends, or it goes on for the same
    class and start time with at least the entries it had. *)
Definition sessionContinues (before after : option Session) : Prop :=
  match before, after with
  | _, None => True
  | None, Some _ => False
  | Some s, Some s' =>
      classId s' = classId s ∧ startedAt s' = startedAt s ∧
      dom (attendance s) ⊆ dom (attendance s')
  end.

(** What inbound frames may do to the server. *)
Definition evolves (σ σ' : Server) : Prop :=
  allWs σ' = allWs σ ∧ Classes σ' = Classes σ ∧
  Attendances σ `prefix_of` Attendances σ' ∧
  wire σ `prefix_of` wire σ' ∧
  sessionContinues (activeSession σ) (activeSession σ').

(** The property names of a roster. *)
Definition rosterKeys (roster : list ObjectId) : gset string :=
  list_to_set (oid_toString <$> roster).

(** The attendance object the DONE case persists and counts. *)
Definition finalAttendance (session : Session) (classRoom : option ClassDoc)
  : gmap string string :=
  match classRoom with
  | Some c => markUnmarkedAbsent (attendance session) (studentIds c)
  | None => attendance session
  end.

(** A string without a space. *)
Fixpoint spaceFree (s : string) : bool :=
  match s with
  | EmptyString => true
  | String c rest => negb (Ascii.eqb c " "%char) && spaceFree rest
  end.

Definition unauthorized : Response :=
  failure 401 "Unauthorized, token missing or invalid".

(** Users and requests for the runs. *)
Definition users0 : list UserDoc :=
  [ {| user_id := 1%N; user_name := "Asha"; user_email := "asha@example.com";
       user_password := "$2b$10$hash-of-teacher"; user_role := TEACHER |};
    {| user_id := 256%N; user_name := "Rahul"; user_email := "rahul@example.com";
       user_password := "$2b$10$hash-of-s100"; user_role := STUDENT |};
    {| user_id := 257%N; user_name := "Meera"; user_email := "meera@example.com";
       user_password := "$2b$10$hash-of-s101"; user_role := STUDENT |};
    {| user_id := 266%N; user_name := "Vikram"; user_email := "vikram@example.com";
       user_password := "$2b$10$hash-of-s10a"; user_role := STUDENT |} ].

(** A second class of the same teacher, with the one student 10a. *)
Definition c102 : ClassDoc :=
  {| _id := 4098%N; className := "Physics 102"; teacherId := Some 1%N;
     studentIds := [266%N] |}.

Definition s10a : string := oid_toString 266%N.

(** The id of 10a written with a capital digit. *)
Definition s10A : string := "00000000000000000000010A".

Definition classIdOf (c : ClassDoc) : string := oid_toString (_id c).

Definition enrolRequest (studentId : string) : Request :=
  {| authorization := Some "teacher-token";
     body := VObject [("studentId", VString studentId)] |}.

Definition schoolWith (session : option Session) : Server :=
  {| activeSession := session; allWs := [teacherWs; studentWs];
     Classes := [c101; c102]; Attendances := []; wire := [] |}.

Definition asTeacher (body : JsValue) : Request :=
  {| authorization := Some "teacher-token"; body := body |}.

Definition asStudent (body : JsValue) : Request :=
  {| authorization := Some "student-token"; body := body |}.

Definition noBody : JsValue := VObject [].

(** * Properties *)

(** ** Object ids as property names *)

Lemma hexString_length digits n acc :
  String.length (hexString digits n acc) = digits + String.length acc.
Proof.
  revert n acc. induction digits as [|k IH]; intros n acc; simpl; [done|].
  rewrite IH. simpl. lia.
Qed.

Lemma oid_toString_length o : String.length (oid_toString o) = 24.
Proof. unfold oid_toString. by rewrite hexString_length. Qed.

Lemma prototype_name_length k :
  k ∈ Object_prototype_names → String.length k ≠ 24.
Proof.
  unfold Object_prototype_names. intros H.
  repeat (apply elem_of_cons in H as [-> | H]; [simpl; lia|]).
  by apply elem_of_nil in H.
Qed.

Lemma oid_toString_not_inherited o : oid_toString o ∉ Object_prototype_names.
Proof.
  intros H. apply prototype_name_length in H.
  by rewrite oid_toString_length in H.
Qed.

Lemma oid_toString_not_proto o : oid_toString o ≠ "__proto__".
Proof.
  intros H. apply (f_equal String.length) in H.
  rewrite oid_toString_length in H. simpl in H. lia.
Qed.

Lemma js_set_insert att k v : k ≠ "__proto__" → js_set att k v = <[k := v]> att.
Proof. intros H. unfold js_set. by rewrite bool_decide_eq_false_2. Qed.

Lemma js_set_proto att v : js_set att "__proto__" v = att.
Proof. done. Qed.

Lemma js_get_oid att o :
  js_get att (oid_toString o) =
  match att !! oid_toString o with Some v => Own v | None => Undefined end.
Proof.
  unfold js_get. destruct (att !! oid_toString o); [done|].
  rewrite bool_decide_eq_false_2; [done|]. apply oid_toString_not_inherited.
Qed.

(** ** Writing to sockets *)

Lemma append_wire_nil σ : append_wire [] σ = σ.
Proof. destruct σ. unfold append_wire. simpl. by rewrite app_nil_r. Qed.

Lemma append_wire_app f g σ :
  append_wire g (append_wire f σ) = append_wire (f ++ g) σ.
Proof. unfold append_wire. simpl. by rewrite app_assoc. Qed.

Lemma ws_send_run w payload σ :
  ws_send w payload σ =
  match onSend w with
  | Delivers => (inr tt, append_wire [(wsId w, payload)] σ)
  | Drops => (inr tt, σ)
  | Throws => (inl SendFailure, σ)
  end.
Proof. unfold ws_send. by destruct (onSend w). Qed.

Lemma forEach_send payload l σ :
  forEach (λ w, ws_send w payload) l σ =
  (if existsb raises l then inl SendFailure else inr tt,
   append_wire (framesOf payload (beforeFirstRaise l)) σ).
Proof.
  revert σ. induction l as [|w l IH]; intros σ.
  - simpl. by rewrite append_wire_nil.
  - simpl. unfold bind. rewrite ws_send_run. unfold raises, framesOf.
    destruct (onSend w) eqn:E; simpl.
    + rewrite IH. unfold delivers at 1. rewrite E. simpl.
      by rewrite append_wire_app.
    + rewrite IH. unfold delivers at 1. rewrite E. simpl. done.
    + by rewrite append_wire_nil.
Qed.

Lemma ws_send_frame w payload σ :
  let σ' := snd (ws_send w payload σ) in
  activeSession σ' = activeSession σ ∧ allWs σ' = allWs σ ∧
  Classes σ' = Classes σ ∧ Attendances σ' = Attendances σ ∧
  wire σ' = (wire σ ++ (if delivers w then [(wsId w, payload)] else []))%list.
Proof.
  rewrite ws_send_run. unfold delivers.
  destruct (onSend w); simpl; by rewrite ?app_nil_r.
Qed.

(** ** Counting statuses *)

Lemma countStatus_cons st v l :
  countStatus st (v :: l) = (if bool_decide (v = st) then 1 else 0) + countStatus st l.
Proof.
  unfold countStatus. rewrite filter_cons.
  destruct (decide (v = st)) as [E|E].
  - by rewrite bool_decide_eq_true_2.
  - by rewrite bool_decide_eq_false_2.
Qed.

Lemma countStatus_perm st l1 l2 : l1 ≡ₚ l2 → countStatus st l1 = countStatus st l2.
Proof. intros H. unfold countStatus. by rewrite H. Qed.

Lemma Object_values_insert att k v :
  Object_values (<[k := v]> att) ≡ₚ v :: Object_values (delete k att).
Proof.
  unfold Object_values. rewrite <- (insert_delete_eq att k v).
  rewrite map_to_list_insert by apply lookup_delete_eq. done.
Qed.

Lemma counts_within_total l :
  (countStatus "present" l + countStatus "absent" l ≤ length l)%nat.
Proof.
  induction l as [|v l IH]; [done|].
  rewrite !countStatus_cons. simpl length.
  repeat case_bool_decide; subst; try discriminate; lia.
Qed.

Lemma counts_reach_total l :
  countStatus "present" l + countStatus "absent" l = length l
  ↔ Forall (λ v, v = "present" ∨ v = "absent") l.
Proof.
  induction l as [|v l IH]; [by split; [constructor|]|].
  rewrite !countStatus_cons, Forall_cons. simpl length.
  pose proof (counts_within_total l).
  repeat case_bool_decide; subst; try discriminate; split.
  all: try (intros E; split; [by auto|]; apply IH; lia).
  all: try (intros [_ E]; apply IH in E; lia).
  - intros E. lia.
  - intros [[E|E] _]; done.
Qed.

Lemma Forall_Object_values (P : string → Prop) att :
  Forall P (Object_values att) ↔ ∀ k v, att !! k = Some v → P v.
Proof.
  unfold Object_values. rewrite Forall_fmap, Forall_forall. split.
  - intros H k v Hkv. apply (H (k, v)). by apply elem_of_map_to_list.
  - intros H [k v] Hkv. apply elem_of_map_to_list in Hkv. simpl. eauto.
Qed.

Lemma total_is_size att : total (summarize att) = size att.
Proof.
  unfold summarize, Object_values. simpl.
  by rewrite length_fmap, length_map_to_list.
Qed.

(** ** Defaulting the roster to absent *)

Lemma markAbsentIfUnmarked_run att o :
  markAbsentIfUnmarked att o =
  match att !! oid_toString o with
  | Some v => if bool_decide (v = EmptyString)
              then <[oid_toString o := "absent"]> att else att
  | None => <[oid_toString o := "absent"]> att
  end.
Proof.
  unfold markAbsentIfUnmarked. rewrite js_get_oid.
  rewrite js_set_insert by apply oid_toString_not_proto.
  destruct (att !! oid_toString o) as [v|]; [|done].
  simpl. by case_bool_decide.
Qed.

(** An entry with a non-empty status is never overwritten. *)
Lemma markUnmarkedAbsent_keeps roster att k v :
  att !! k = Some v → v ≠ EmptyString →
  markUnmarkedAbsent att roster !! k = Some v.
Proof.
  revert att. induction roster as [|o roster IH]; intros att Hk Hv; [done|].
  unfold markUnmarkedAbsent. simpl. apply IH; [|done].
  rewrite markAbsentIfUnmarked_run.
  destruct (decide (oid_toString o = k)) as [<-|Hne].
  - rewrite Hk. by rewrite bool_decide_eq_false_2.
  - destruct (att !! oid_toString o) as [w|]; [case_bool_decide|];
      by rewrite ?lookup_insert_ne.
Qed.

(** A roster student without an entry, or with an empty one, ends absent. *)
Lemma markUnmarkedAbsent_defaults roster att o :
  o ∈ roster →
  (∀ v, att !! oid_toString o = Some v → v = EmptyString ∨ v = "absent") →
  markUnmarkedAbsent att roster !! oid_toString o = Some "absent".
Proof.
  revert att. induction roster as [|o' roster IH]; intros att Hin Hfalsy.
  { by apply elem_of_nil in Hin. }
  unfold markUnmarkedAbsent. simpl.
  destruct (decide (oid_toString o' = oid_toString o)) as [E|Hne].
  - apply markUnmarkedAbsent_keeps; [|done].
    rewrite markAbsentIfUnmarked_run, E.
    destruct (att !! oid_toString o) as [v|] eqn:Hv.
    + case_bool_decide; [by rewrite lookup_insert_eq|].
      destruct (Hfalsy v eq_refl) as [->| ->]; done.
    + by rewrite lookup_insert_eq.
  - apply IH.
    + apply elem_of_cons in Hin as [->|Hin]; done.
    + intros v. rewrite markAbsentIfUnmarked_run.
      destruct (att !! oid_toString o') as [w|]; [case_bool_decide|];
        rewrite ?lookup_insert_ne by done; apply Hfalsy.
Qed.

(** Entries of students outside the roster are left alone. *)
Lemma markUnmarkedAbsent_others roster att k :
  (∀ o, o ∈ roster → oid_toString o ≠ k) →
  markUnmarkedAbsent att roster !! k = att !! k.
Proof.
  revert att. induction roster as [|o roster IH]; intros att Hout; [done|].
  unfold markUnmarkedAbsent. simpl.
  assert (oid_toString o ≠ k) as Hne by (apply Hout; left).
  etrans; [apply IH; intros o' Ho'; apply Hout; by right|].
  rewrite markAbsentIfUnmarked_run.
  destruct (att !! oid_toString o) as [w|]; [case_bool_decide|];
    by rewrite ?lookup_insert_ne.
Qed.

Section Properties.

Variable rt : Runtime.

Lemma broadcast_run message σ :
  broadcast rt message σ =
  (if existsb raises (allWs σ) then inl SendFailure else inr tt,
   append_wire
     (framesOf (JSON_stringify rt message) (beforeFirstRaise (allWs σ))) σ).
Proof. unfold broadcast. apply forEach_send. Qed.

Lemma broadcast_frame message σ :
  let σ' := snd (broadcast rt message σ) in
  activeSession σ' = activeSession σ ∧ allWs σ' = allWs σ ∧
  Classes σ' = Classes σ ∧ Attendances σ' = Attendances σ.
Proof. by rewrite broadcast_run. Qed.

(** C4.  On registered sockets whose [send] returns (it delivers, or it
    fails without raising), [broadcast] serializes the message once and
    offers that one payload to every registered socket in registration
    order: every socket that delivers is written exactly that frame, a
    socket that fails to deliver leaves the others served as if it were not
    registered, and [broadcast] returns to its caller without error;
    nothing but the frames written changes. *)
Theorem broadcast_serves_every_socket (message : JsValue) (σ : Server) :
  existsb raises (allWs σ) = false →
  let payload := JSON_stringify rt message in
  let result := broadcast rt message σ in
  fst result = inr tt
  ∧ wire (snd result) =
      (wire σ ++ map (λ w, (wsId w, payload)) (List.filter delivers (allWs σ)))%list
  ∧ (∀ before w after,
       allWs σ = (before ++ w :: after)%list →
       delivers w = false →
       wire (snd result) =
         (wire σ
          ++ map (λ w, (wsId w, payload)) (List.filter delivers before)
          ++ map (λ w, (wsId w, payload)) (List.filter delivers after))%list)
  ∧ activeSession (snd result) = activeSession σ
  ∧ allWs (snd result) = allWs σ
  ∧ Classes (snd result) = Classes σ
  ∧ Attendances (snd result) = Attendances σ.
Proof.
  intros Hquiet payload result. subst result. rewrite broadcast_run, Hquiet.
  assert (beforeFirstRaise (allWs σ) = allWs σ) as ->.
  { revert Hquiet. induction (allWs σ) as [|w l IH]; simpl; [done|].
    destruct (raises w); simpl; [done|]. intros H. by rewrite IH. }
  split; [done|]. split; [done|]. split; [|done].
  intros before w after Hl Hw. simpl. unfold framesOf. rewrite Hl.
  rewrite List.filter_app. simpl. rewrite Hw. by rewrite map_app.
Qed.

(** ** The guards of the protocol events *)

Lemma sendError_frame ws reply σ :
  let σ' := snd (sendError rt ws reply σ) in
  activeSession σ' = activeSession σ ∧ allWs σ' = allWs σ ∧
  Classes σ' = Classes σ ∧ Attendances σ' = Attendances σ ∧
  wire σ' =
    (wire σ ++ (if delivers ws
                then [(wsId ws, JSON_stringify rt (errorMessage reply))]
                else []))%list.
Proof. apply ws_send_frame. Qed.

Lemma guards_without_session ws message σ r :
  activeSession σ = None →
  requiredRole (event message) = Some r →
  onMessage rt ws (Parsed message) σ =
  sendError rt ws (if bool_decide (role (user ws) = r)
                   then "No active attendance session"
                   else forbidden r) σ.
Proof.
  intros Hnone Hreq. unfold onMessage, requiredRole in *.
  destruct (String.eqb (event message) "ATTENDANCE_MARKED").
  { injection Hreq as <-. unfold case_ATTENDANCE_MARKED. rewrite Hnone.
    by destruct (role (user ws)). }
  destruct (String.eqb (event message) "TODAY_SUMMARY").
  { injection Hreq as <-. unfold case_TODAY_SUMMARY. rewrite Hnone.
    by destruct (role (user ws)). }
  destruct (String.eqb (event message) "MY_ATTENDANCE").
  { injection Hreq as <-. unfold case_MY_ATTENDANCE. rewrite Hnone.
    by destruct (role (user ws)). }
  destruct (String.eqb (event message) "DONE"); [|done].
  injection Hreq as <-. unfold case_DONE. rewrite Hnone.
  by destruct (role (user ws)).
Qed.

(** C3 (as amended).  With no active session, each of the four protocol
    events ends in one error notification to the sender and nothing else:
    the session stays absent, the durable collections and the set of
    sockets are untouched, and no other socket is written to.  The role is
    checked first: the notification is "No active attendance session"
    when the sender holds the role the event requires, and the role
    violation otherwise. *)
Theorem no_session_only_notifies_sender
    (ws : WebSocket) (message : Message) (σ : Server) (r : Role) :
  activeSession σ = None →
  requiredRole (event message) = Some r →
  let reply := if bool_decide (role (user ws) = r)
               then "No active attendance session" else forbidden r in
  let σ' := snd (onMessage rt ws (Parsed message) σ) in
  onMessage rt ws (Parsed message) σ = sendError rt ws reply σ
  ∧ activeSession σ' = None ∧ allWs σ' = allWs σ
  ∧ Classes σ' = Classes σ ∧ Attendances σ' = Attendances σ
  ∧ wire σ' =
      (wire σ ++ (if delivers ws
                  then [(wsId ws, JSON_stringify rt (errorMessage reply))]
                  else []))%list.
Proof.
  intros Hnone Hreq reply σ'. subst σ'.
  rewrite (guards_without_session _ _ _ _ Hnone Hreq). fold reply.
  destruct (sendError_frame ws reply σ) as (H1 & H2 & H3 & H4 & H5).
  rewrite Hnone in H1. by repeat split.
Qed.

(** C5.  A Mark sent on a socket bound to the role student is answered by
    one error notification on that socket; the session (class id, start
    time, attendance object), the collections and the socket set are
    unchanged, and no other socket is written to. *)
Theorem student_mark_is_refused
    (ws : WebSocket) (message : Message) (σ : Server) :
  role (user ws) = STUDENT →
  event message = "ATTENDANCE_MARKED" →
  let σ' := snd (onMessage rt ws (Parsed message) σ) in
  onMessage rt ws (Parsed message) σ =
    sendError rt ws "Forbidden, teacher event only" σ
  ∧ activeSession σ' = activeSession σ ∧ allWs σ' = allWs σ
  ∧ Classes σ' = Classes σ ∧ Attendances σ' = Attendances σ
  ∧ wire σ' =
      (wire σ ++
       (if delivers ws
        then [(wsId ws,
               JSON_stringify rt (errorMessage "Forbidden, teacher event only"))]
        else []))%list.
Proof.
  intros Hrole Hev σ'. subst σ'.
  assert (onMessage rt ws (Parsed message) σ =
          sendError rt ws "Forbidden, teacher event only" σ) as ->.
  { unfold onMessage. rewrite Hev. simpl.
    unfold case_ATTENDANCE_MARKED. by rewrite Hrole. }
  split; [done|]. apply sendError_frame.
Qed.

(** ** Mark and Summary *)

Lemma mark_run ws d σ session :
  role (user ws) = TEACHER →
  activeSession σ = Some session →
  onMessage rt ws (markFrame d) σ =
  broadcast rt (markedMessage d)
    (set_activeSession
       (Some (set_attendance
                (js_set (attendance session) (studentId d) (status d)) session))
       σ).
Proof.
  intros Hrole Hs. unfold onMessage, markFrame. simpl.
  unfold case_ATTENDANCE_MARKED. by rewrite Hrole, Hs.
Qed.

Lemma deliver_mark ws d σ session :
  role (user ws) = TEACHER →
  activeSession σ = Some session →
  activeSession (deliver rt σ (ws, markFrame d)) =
  Some (set_attendance
          (js_set (attendance session) (studentId d) (status d)) session).
Proof.
  intros Hrole Hs.
  change (deliver rt σ (ws, markFrame d))
    with (snd (onMessage rt ws (markFrame d) σ)).
  rewrite (mark_run _ _ _ _ Hrole Hs).
  by destruct (broadcast_frame (markedMessage d)
    (set_activeSession
       (Some (set_attendance
                (js_set (attendance session) (studentId d) (status d)) session))
       σ)) as [-> _].
Qed.

Lemma set_attendance_same session :
  set_attendance (attendance session) session = session.
Proof. by destruct session. Qed.

Lemma deliver_marks marks σ session :
  Forall (λ e, role (user (fst e)) = TEACHER) marks →
  activeSession σ = Some session →
  activeSession (foldl (deliver rt) σ (markFrames marks)) =
  Some (set_attendance
          (foldl (λ a e, js_set a (studentId (snd e)) (status (snd e)))
                 (attendance session) marks)
          session).
Proof.
  revert σ session. induction marks as [|[w d] marks IH]; intros σ session Hall Hs.
  - simpl. by rewrite set_attendance_same.
  - apply Forall_cons in Hall as [Hw Hall]. simpl in Hw. simpl.
    rewrite (IH _ _ Hall (deliver_mark _ d _ _ Hw Hs)). done.
Qed.

Lemma dom_marks marks (att : gmap string string) :
  Forall (λ e : WebSocket * MarkData, studentId (snd e) ≠ "__proto__") marks →
  dom (foldl (λ a e, js_set a (studentId (snd e)) (status (snd e))) att marks)
  = dom att ∪ studentsMarked marks.
Proof.
  revert att. induction marks as [|[w d] marks IH]; intros att Hall.
  - unfold studentsMarked. simpl. by rewrite (right_id_L ∅ (∪)).
  - apply Forall_cons in Hall as [Hd Hall]. simpl in Hd. simpl.
    rewrite (IH _ Hall), (js_set_insert _ _ _ Hd), dom_insert_L.
    unfold studentsMarked. simpl.
    rewrite (comm_L (∪) {[studentId d]} (dom att)).
    by rewrite (assoc_L (∪)).
Qed.

Lemma summary_run ws σ session :
  role (user ws) = TEACHER →
  activeSession σ = Some session →
  onMessage rt ws (eventFrame "TODAY_SUMMARY") σ =
  broadcast rt (summaryMessage (summarize (attendance session))) σ.
Proof.
  intros Hrole Hs. unfold onMessage, eventFrame. simpl.
  unfold case_TODAY_SUMMARY. by rewrite Hrole, Hs.
Qed.

(** C2 (as amended).  After any sequence of Mark events sent by teachers
    to an active session, with student ids that are ordinary property
    names, the summary that TODAY_SUMMARY broadcasts has [total] equal to
    the number of distinct students marked (those already in the session
    and those of the sequence), and [present + absent <= total], with
    equality exactly when every recorded status is "present" or
    "absent". *)
Theorem summary_after_marks
    (marks : list (WebSocket * MarkData)) (σ : Server) (session : Session)
    (teacher : WebSocket) :
  activeSession σ = Some session →
  Forall (λ e, role (user (fst e)) = TEACHER) marks →
  Forall (λ e : WebSocket * MarkData, studentId (snd e) ≠ "__proto__") marks →
  role (user teacher) = TEACHER →
  let σ' := foldl (deliver rt) σ (markFrames marks) in
  let s := summarize (attendanceOf σ') in
  onMessage rt teacher (eventFrame "TODAY_SUMMARY") σ' =
    broadcast rt (summaryMessage s) σ'
  ∧ total s = size (dom (attendance session) ∪ studentsMarked marks)
  ∧ (present s + absent s ≤ total s)%nat
  ∧ (present s + absent s = total s
     ↔ ∀ k v, attendanceOf σ' !! k = Some v → v = "present" ∨ v = "absent").
Proof.
  intros Hs Hteachers Hids Hteacher σ' s.
  pose proof (deliver_marks marks σ session Hteachers Hs) as Hσ'.
  fold σ' in Hσ'. subst s.
  split; [by rewrite (summary_run _ _ _ Hteacher Hσ'); unfold attendanceOf; rewrite Hσ'|].
  unfold attendanceOf. rewrite Hσ'. cbn [attendance set_attendance]. split.
  - rewrite total_is_size, <- (dom_marks marks _ Hids). by rewrite size_dom.
  - split; [apply counts_within_total|].
    rewrite <- Forall_Object_values. apply counts_reach_total.
Qed.

(** C8 (as amended).  For a student id [s] other than [__proto__], Mark
    upserts the one entry keyed by [s]: after Mark [(s, a)] then Mark
    [(s, b)] the attendance object binds [s] to [b], is the object that
    Mark [(s, b)] alone produces (nothing of [a] is kept), and agrees with
    the earlier object on every other key; marking [(s, a)] twice gives
    what marking it once gives. *)
Theorem mark_upserts_one_entry
    (t1 t2 : WebSocket) (σ : Server) (session : Session) (s a b : string) :
  role (user t1) = TEACHER → role (user t2) = TEACHER →
  activeSession σ = Some session →
  s ≠ "__proto__" →
  let mark st := markFrame {| studentId := s; status := st |} in
  let after inputs := foldl (deliver rt) σ inputs in
  attendanceOf (after [(t1, mark a); (t2, mark b)]) !! s = Some b
  ∧ attendanceOf (after [(t1, mark a); (t2, mark b)])
    = attendanceOf (after [(t2, mark b)])
  ∧ (∀ k, k ≠ s →
       attendanceOf (after [(t1, mark a); (t2, mark b)]) !! k
       = attendance session !! k)
  ∧ attendanceOf (after [(t1, mark a); (t2, mark a)])
    = attendanceOf (after [(t1, mark a)]).
Proof.
  intros H1 H2 Hs Hne mark after. subst mark after. simpl.
  pose proof (deliver_mark t1 {| studentId := s; status := a |} σ session H1 Hs)
    as Ha.
  pose proof (deliver_mark t2 {| studentId := s; status := b |} _ _ H2 Ha) as Hab.
  pose proof (deliver_mark t2 {| studentId := s; status := a |} _ _ H2 Ha) as Haa.
  pose proof (deliver_mark t2 {| studentId := s; status := b |} σ session H2 Hs)
    as Hb.
  unfold attendanceOf. rewrite Hab, Haa, Ha, Hb. simpl.
  rewrite !js_set_insert by done. rewrite !insert_insert_eq.
  repeat split.
  - apply lookup_insert_eq.
  - intros k Hk. by rewrite lookup_insert_ne.
Qed.

(** ** Self-status *)

Lemma myAttendanceMessage_oid att o :
  myAttendanceMessage (js_get att (oid_toString o))
  = statusReply (selfStatus att (oid_toString o)).
Proof.
  rewrite js_get_oid. unfold selfStatus, myAttendanceMessage, statusReply.
  destruct (att !! oid_toString o) as [v|]; [|done].
  simpl. by case_bool_decide.
Qed.

Lemma my_attendance_run ws message σ session :
  role (user ws) = STUDENT →
  event message = "MY_ATTENDANCE" →
  activeSession σ = Some session →
  onMessage rt ws (Parsed message) σ =
  ws_send ws
    (JSON_stringify rt
       (statusReply (selfStatus (attendance session) (req_userId (user ws))))) σ.
Proof.
  intros Hrole Hev Hs. unfold onMessage. rewrite Hev. simpl.
  unfold case_MY_ATTENDANCE. rewrite Hrole, Hs. simpl.
  unfold req_userId. by rewrite myAttendanceMessage_oid.
Qed.






(** C10.  MY_ATTENDANCE consults no class: whatever the Classes
    collection holds, a socket with role student is answered, in an active
    session, with the entry of the attendance object under its userId, or
    with "not yet updated" when that entry is missing or empty.  The answer
    is the one frame written, on the requester's socket; the session, the
    sockets and the collections stay as they are. *)
Theorem self_status_has_no_enrolment_check
    (ws : WebSocket) (message : Message) (session : Session)
    (sockets : list WebSocket) (classes : list ClassDoc)
    (docs : list AttendanceDoc) (frames : list (nat * string)) :
  role (user ws) = STUDENT →
  event message = "MY_ATTENDANCE" →
  let σ := {| activeSession := Some session; allWs := sockets;
              Classes := classes; Attendances := docs; wire := frames |} in
  let answer :=
    match attendance session !! req_userId (user ws) with
    | Some v => if bool_decide (v = EmptyString) then "not yet updated" else v
    | None => "not yet updated"
    end in
  let result := onMessage rt ws (Parsed message) σ in
  fst result = (if raises ws then inl SendFailure else inr tt)
  ∧ wire (snd result) =
      (frames ++
       (if delivers ws
        then [(wsId ws,
               JSON_stringify rt
                 (VObject [("event", VString "MY_ATTENDANCE");
                           ("data", VObject [("status", VString answer)])]))]
        else []))%list
  ∧ activeSession (snd result) = Some session
  ∧ allWs (snd result) = sockets
  ∧ Classes (snd result) = classes
  ∧ Attendances (snd result) = docs.
Proof.
  intros Hrole Hev σ answer result. subst result.
  rewrite (my_attendance_run ws message σ session Hrole Hev eq_refl).
  fold (selfStatus (attendance session) (req_userId (user ws))) in answer.
  unfold statusReply. fold answer.
  rewrite ws_send_run. unfold raises, delivers.
  destruct (onSend ws); simpl; by rewrite ?app_nil_r.
Qed.

(** ** Finalize *)

Lemma set_activeSession_same σ session :
  activeSession σ = Some session → set_activeSession (Some session) σ = σ.
Proof. destruct σ. simpl. by intros ->. Qed.

Lemma done_run ws σ session :
  role (user ws) = TEACHER →
  activeSession σ = Some session →
  onMessage rt ws (eventFrame "DONE") σ = finalizeSession rt session σ.
Proof.
  intros Hrole Hs. unfold onMessage, eventFrame. simpl.
  unfold case_DONE. by rewrite Hrole, Hs.
Qed.

(** What the DONE case does once the query for the class has answered. *)
Lemma finalizeSession_run σ session classRoom :
  ClassModel_findById rt (classId session) σ = (inr classRoom, σ) →
  let final := match classRoom with
               | Some c => markUnmarkedAbsent (attendance session) (studentIds c)
               | None => attendance session
               end in
  finalizeSession rt session σ =
  match mapM (attendanceSchema_cast rt)
             (attendanceRecords (classId session) final) with
  | Some docs =>
      broadcast rt (doneMessage (summarize final))
        (set_activeSession None (set_Attendances (Attendances σ ++ docs) σ))
  | None =>
      (inl ValidationError,
       set_activeSession (Some (set_attendance final session)) σ)
  end.
Proof.
  intros Hfind final. unfold finalizeSession, bind at 1. rewrite Hfind.
  fold final. unfold bind, update, AttendanceModel_insertMany. simpl.
  destruct (attendanceRecords (classId session) final) as [|r records] eqn:Hr.
  - simpl. unfold set_Attendances. simpl. rewrite app_nil_r.
    by destruct σ.
  - rewrite bool_decide_eq_true_2 by (simpl; lia).
    by destruct (mapM (attendanceSchema_cast rt) (r :: records)).
Qed.

Lemma attendanceSchema_cast_status r :
  rec_status r ∉ AttendanceStatus_values → attendanceSchema_cast rt r = None.
Proof.
  intros H. unfold attendanceSchema_cast.
  destruct (castObjectId rt (rec_classId r)); [|done].
  destruct (castObjectId rt (rec_studentId r)); [|done].
  by rewrite bool_decide_eq_false_2.
Qed.

Lemma attendanceRecords_entry classId att k v :
  att !! k = Some v →
  {| rec_classId := classId; rec_studentId := k; rec_status := v |}
    ∈ attendanceRecords classId att.
Proof.
  intros H. unfold attendanceRecords, Object_entries.
  apply list_elem_of_In, in_map_iff. exists (k, v). split; [done|].
  apply list_elem_of_In. by apply elem_of_map_to_list.
Qed.

(** One entry whose status is outside the enumeration makes the batch fail
    the schema. *)
Lemma batch_rejected classId att k v :
  att !! k = Some v → v ∉ AttendanceStatus_values →
  mapM (attendanceSchema_cast rt) (attendanceRecords classId att) = None.
Proof.
  intros Hk Hv.
  destruct (mapM (attendanceSchema_cast rt) (attendanceRecords classId att))
    as [docs|] eqn:E; [|done].
  assert (is_Some (mapM (attendanceSchema_cast rt)
                        (attendanceRecords classId att))) as Hsome by eauto.
  apply mapM_is_Some_1 in Hsome.
  rewrite Forall_forall in Hsome.
  specialize (Hsome _ (attendanceRecords_entry classId att k v Hk)).
  simpl in Hsome. rewrite attendanceSchema_cast_status in Hsome by done.
  by destruct Hsome.
Qed.

(** C1 (as amended).  For an active session whose class is found at
    Finalize, the finalized attendance object gives every student of the
    roster one status: the status marked before when that status is a
    non-empty string, "absent" when the student had no entry; entries of
    students outside the roster are kept.  When the batch built from that
    object passes the Attendance schema, it is added to the durable
    collection, the DONE broadcast carries the counts of that object and
    [activeSession] is null afterwards; when the batch fails the schema
    the handler throws with the session still active. *)
Theorem finalize_defaults_then_clears
    (teacher : WebSocket) (σ : Server) (session : Session) (c : ClassDoc) :
  role (user teacher) = TEACHER →
  activeSession σ = Some session →
  ClassModel_findById rt (classId session) σ = (inr (Some c), σ) →
  let final := markUnmarkedAbsent (attendance session) (studentIds c) in
  let batch := mapM (attendanceSchema_cast rt)
                    (attendanceRecords (classId session) final) in
  let result := onMessage rt teacher (eventFrame "DONE") σ in
  (∀ o, o ∈ studentIds c →
     match attendance session !! oid_toString o with
     | Some v => v ≠ EmptyString → final !! oid_toString o = Some v
     | None => final !! oid_toString o = Some "absent"
     end)
  ∧ (∀ k, (∀ o, o ∈ studentIds c → oid_toString o ≠ k) →
       final !! k = attendance session !! k)
  ∧ (∀ docs, batch = Some docs →
       result =
         broadcast rt (doneMessage (summarize final))
           (set_activeSession None
              (set_Attendances (Attendances σ ++ docs) σ))
       ∧ activeSession (snd result) = None
       ∧ Attendances (snd result) = (Attendances σ ++ docs)%list)
  ∧ (batch = None →
       result =
         (inl ValidationError,
          set_activeSession (Some (set_attendance final session)) σ)).
Proof.
  intros Hrole Hs Hfind final batch result.
  assert (result =
          match batch with
          | Some docs =>
              broadcast rt (doneMessage (summarize final))
                (set_activeSession None
                   (set_Attendances (Attendances σ ++ docs) σ))
          | None =>
              (inl ValidationError,
               set_activeSession (Some (set_attendance final session)) σ)
          end) as Hrun.
  { subst result. rewrite (done_run _ _ _ Hrole Hs).
    by apply (finalizeSession_run σ session (Some c)). }
  split; [|split; [|split]].
  - intros o Ho. destruct (attendance session !! oid_toString o) as [v|] eqn:E.
    + intros Hv. by apply markUnmarkedAbsent_keeps.
    + apply markUnmarkedAbsent_defaults; [done|]. intros v Hv. congruence.
  - intros k Hk. by apply markUnmarkedAbsent_others.
  - intros docs Hb. rewrite Hrun, Hb. split; [done|].
    destruct (broadcast_frame (doneMessage (summarize final))
                (set_activeSession None
                   (set_Attendances (Attendances σ ++ docs) σ)))
      as (-> & _ & _ & -> ). done.
  - intros Hb. by rewrite Hrun, Hb.
Qed.

(** A non-empty status outside the enumeration stops DONE: the handler
    throws, and the session is still there with that entry. *)
Lemma done_rejected ws σ session k v :
  role (user ws) = TEACHER →
  activeSession σ = Some session →
  attendance session !! k = Some v →
  v ≠ EmptyString → v ∉ AttendanceStatus_values →
  ∃ e session',
    onMessage rt ws (eventFrame "DONE") σ
    = (inl e, set_activeSession (Some session') σ)
    ∧ attendance session' !! k = Some v.
Proof.
  intros Hrole Hs Hk Hne Hv. rewrite (done_run _ _ _ Hrole Hs).
  destruct (castObjectId rt (classId session)) as [o|] eqn:Hcast.
  - pose proof (finalizeSession_run σ session
                  (find (λ c, bool_decide (_id c = o)) (Classes σ))) as Hrun.
    simpl in Hrun. unfold ClassModel_findById in Hrun at 1.
    rewrite Hcast in Hrun. specialize (Hrun eq_refl).
    set (final := match find (λ c, bool_decide (_id c = o)) (Classes σ) with
                  | Some c => markUnmarkedAbsent (attendance session) (studentIds c)
                  | None => attendance session
                  end) in *.
    assert (final !! k = Some v) as Hfinal.
    { subst final. destruct (find _ _); [|done].
      by apply markUnmarkedAbsent_keeps. }
    rewrite (batch_rejected _ _ _ _ Hfinal Hv) in Hrun.
    exists ValidationError, (set_attendance final session). done.
  - exists CastError, session. split; [|done].
    unfold finalizeSession, bind at 1, ClassModel_findById.
    rewrite Hcast. by rewrite set_activeSession_same.
Qed.

(** C9 (as amended).  Mark does not look at the status: for a student id
    other than [__proto__], whatever string a teacher supplies is stored
    as sent and broadcast.  An entry whose status is neither "present"
    nor "absent" adds one to the [total] of the summary and nothing to
    [present] or [absent].  At Finalize such an entry, when not empty, is
    in the batch given to [insertMany], and the Attendance schema refuses
    the batch: the handler throws, no document is added, nothing more is
    written to the sockets and the session stays active with the entry. *)
Theorem status_is_not_validated_by_mark
    (teacher : WebSocket) (σ : Server) (session : Session) (d : MarkData) :
  role (user teacher) = TEACHER →
  activeSession σ = Some session →
  studentId d ≠ "__proto__" →
  let att := <[studentId d := status d]> (attendance session) in
  let rest := delete (studentId d) (attendance session) in
  let σ1 := deliver rt σ (teacher, markFrame d) in
  onMessage rt teacher (markFrame d) σ =
    broadcast rt (markedMessage d)
      (set_activeSession (Some (set_attendance att session)) σ)
  ∧ attendanceOf σ1 = att
  ∧ att !! studentId d = Some (status d)
  ∧ (status d ∉ AttendanceStatus_values →
       total (summarize att) = S (total (summarize rest))
       ∧ present (summarize att) = present (summarize rest)
       ∧ absent (summarize att) = absent (summarize rest)
       ∧ mapM (attendanceSchema_cast rt)
              (attendanceRecords (classId session) att) = None
       ∧ (status d ≠ EmptyString →
          ∀ roster,
            {| rec_classId := classId session; rec_studentId := studentId d;
               rec_status := status d |}
            ∈ attendanceRecords (classId session)
                (markUnmarkedAbsent att roster))
       ∧ (status d ≠ EmptyString →
          ∀ finisher, role (user finisher) = TEACHER →
            let result := onMessage rt finisher (eventFrame "DONE") σ1 in
            (∃ e, fst result = inl e)
            ∧ Attendances (snd result) = Attendances σ
            ∧ wire (snd result) = wire σ1
            ∧ is_Some (activeSession (snd result))
            ∧ attendanceOf (snd result) !! studentId d = Some (status d))).
Proof.
  intros Hrole Hs Hid att rest σ1.
  pose proof (mark_run teacher d σ session Hrole Hs) as Hrun.
  rewrite (js_set_insert _ _ _ Hid) in Hrun. fold att in Hrun.
  pose proof (deliver_mark teacher d σ session Hrole Hs) as Hs1.
  rewrite (js_set_insert _ _ _ Hid) in Hs1. fold att σ1 in Hs1.
  assert (att !! studentId d = Some (status d)) as Hentry
    by apply lookup_insert_eq.
  split; [done|]. split; [by unfold attendanceOf; rewrite Hs1|].
  split; [done|]. intros Hstatus.
  assert (status d ≠ "present" ∧ status d ≠ "absent") as [Hp Ha].
  { split; intros E; apply Hstatus; rewrite E;
      unfold AttendanceStatus_values, PRESENT, ABSENT;
      [by left|right; by left]. }
  split; [|split; [|split; [|split; [|split]]]].
  - rewrite !total_is_size. subst att rest.
    rewrite <- (insert_delete_eq (attendance session)).
    by rewrite map_size_insert_None by apply lookup_delete_eq.
  - unfold summarize. simpl. subst att rest.
    rewrite (countStatus_perm _ _ _ (Object_values_insert _ _ _)).
    rewrite countStatus_cons. by rewrite bool_decide_eq_false_2.
  - unfold summarize. simpl. subst att rest.
    rewrite (countStatus_perm _ _ _ (Object_values_insert _ _ _)).
    rewrite countStatus_cons. by rewrite bool_decide_eq_false_2.
  - by apply (batch_rejected _ _ _ _ Hentry).
  - intros Hne roster. apply attendanceRecords_entry.
    by apply markUnmarkedAbsent_keeps.
  - intros Hne finisher Hfin result.
    destruct (done_rejected finisher σ1 (set_attendance att session)
                (studentId d) (status d) Hfin Hs1 Hentry Hne Hstatus)
      as (e & session' & Hres & Hk).
    subst result. rewrite Hres. simpl.
    split; [by exists e|]. split.
    + subst σ1.
      change (deliver rt σ (teacher, markFrame d))
        with (snd (onMessage rt teacher (markFrame d) σ)).
      rewrite Hrun.
      by destruct (broadcast_frame (markedMessage d)
        (set_activeSession (Some (set_attendance att session)) σ))
        as (_ & _ & _ & ->).
    + split; [done|]. split; [by eexists|]. done.
Qed.

(** ** POST /attendance/start *)

(** C7.  When the request passes both middlewares, its body carries a
    class id, the class is found and its teacher is the requester, the
    route replaces [activeSession] by a new record (the id of that class,
    the current time, an empty attendance object) and answers 200 with
    that class id and time.  Nothing depends on the session that was
    there before: its marks are dropped, nothing is written to the
    collections and nothing is sent to any socket. *)
Theorem start_replaces_session
    (now : string) (req : Request) (σ : Server) (u : User)
    (given : string) (c : ClassDoc) :
  authMiddleware rt req = inr u →
  role u = TEACHER →
  startAttendanceSchema_safeParse (body req) = Some given →
  ClassModel_findById rt given σ = (inr (Some c), σ) →
  oid_toString <$> teacherId c = Some (req_userId u) →
  let fresh := {| classId := oid_toString (_id c); startedAt := now;
                  attendance := ∅ |} in
  let σ' := snd (post_attendance_start rt now req σ) in
  post_attendance_start rt now req σ =
    (inr {| statusCode := 200;
            json := VObject
              [("success", VBool true);
               ("data", VObject [("classId", VString (oid_toString (_id c)));
                                 ("startedAt", VString now)])] |},
     set_activeSession (Some fresh) σ)
  ∧ castObjectId rt given = Some (_id c)
  ∧ activeSession σ' = Some fresh
  ∧ allWs σ' = allWs σ ∧ Classes σ' = Classes σ
  ∧ Attendances σ' = Attendances σ ∧ wire σ' = wire σ.
Proof.
  intros Hauth Hrole Hbody Hfind Howner fresh σ'.
  assert (post_attendance_start rt now req σ =
          (inr {| statusCode := 200;
                  json := VObject
                    [("success", VBool true);
                     ("data", VObject
                        [("classId", VString (oid_toString (_id c)));
                         ("startedAt", VString now)])] |},
           set_activeSession (Some fresh) σ)) as Hrun.
  { unfold post_attendance_start. rewrite Hauth.
    unfold teacherRoleMiddleware. rewrite Hrole. simpl.
    unfold attendance_start_route. rewrite Hbody.
    unfold bind at 1. rewrite Hfind.
    by rewrite bool_decide_eq_false_2 by (intros E; by apply E). }
  subst σ'. rewrite Hrun. split; [done|]. split; [|done].
  unfold ClassModel_findById in Hfind.
  destruct (castObjectId rt given) as [o|]; [|done].
  injection Hfind as Hfind. apply find_some in Hfind as [_ Hid].
  apply bool_decide_eq_true in Hid. by rewrite Hid.
Qed.

End Properties.

(** * The properties on concrete runs

    The runs below use [runtime0], class c101 with roster s100, s101, a
    teacher socket (1), a student socket (2, the socket of s100), a
    closed socket of s100 (3), on which [send] returns without delivering,
    and the socket of s101 (4). *)

(** The scenario of the protocol on class c101: start, Summary, Mark of
    s100, Self-status of s100, Finalize with roster s100, s101. *)
Example scenario_c101 :
  let req := {| authorization := Some "teacher-token";
                body := VObject [("classId", VString (oid_toString 4097%N))] |} in
  let σ0 := snd (post_attendance_start runtime0 "2025-03-11T10:00:00.000Z" req
                   (serverWith None [teacherWs; studentWs])) in
  let σ := foldl (deliver runtime0) σ0
             [(teacherWs, eventFrame "TODAY_SUMMARY");
              (teacherWs, markFrame presentMark);
              (studentWs, eventFrame "MY_ATTENDANCE");
              (teacherWs, eventFrame "DONE")] in
  let summary0 := render (summaryMessage {| present := 0; absent := 0; total := 0 |}) in
  let echo := render (markedMessage presentMark) in
  let final := render (doneMessage {| present := 1; absent := 1; total := 2 |}) in
  activeSession σ0 = Some (sessionOf ∅)
  ∧ wire σ = [(1, summary0); (2, summary0); (1, echo); (2, echo);
              (2, render (statusReply "present")); (1, final); (2, final)]
  ∧ activeSession σ = None
  ∧ length (Attendances σ) = 2
  ∧ {| doc_classId := 4097%N; doc_studentId := 256%N; doc_status := "present" |}
      ∈ Attendances σ
  ∧ {| doc_classId := 4097%N; doc_studentId := 257%N; doc_status := "absent" |}
      ∈ Attendances σ.
Proof.
  intros req σ0 σ summary0 echo final.
  split; [vm_compute; reflexivity|]. split; [vm_compute; reflexivity|].
  split; [vm_compute; reflexivity|]. split; [vm_compute; reflexivity|].
  split; vm_compute.
  - right. left.
  - left.
Qed.

(** ** C4 *)

Lemma broadcast_serves_every_socket_witness :
  let σ := serverWith None [teacherWs; closedWs; studentWs] in
  let message := summaryMessage (summarize ∅) in
  let result := broadcast runtime0 message σ in
  fst result = inr tt
  ∧ wire (snd result) = [(1, render message); (2, render message)]
  ∧ allWs (snd result) = [teacherWs; closedWs; studentWs].
Proof.
  intros σ message result.
  destruct (broadcast_serves_every_socket runtime0 message σ eq_refl)
    as (H1 & _ & H2 & _ & H3 & _).
  split; [exact H1|]. split; [|exact H3].
  exact (H2 [teacherWs] closedWs [studentWs] eq_refl eq_refl).
Defined.

(** ** C3 and C5 *)

(** C3, counterexample.  With no session, DONE from a student is answered
    with the role violation, not with "No active attendance session". *)
Lemma student_done_without_session_gets_role_error :
  let σ := serverWith None [teacherWs; studentWs] in
  let result := onMessage runtime0 studentWs (eventFrame "DONE") σ in
  activeSession σ = None
  ∧ wire (snd result)
    = [(2, render (errorMessage "Forbidden, teacher event only"))]
  ∧ wire (snd result)
    ≠ [(2, render (errorMessage "No active attendance session"))].
Proof.
  intros σ result. split; [done|]. split.
  - vm_compute. reflexivity.
  - vm_compute. discriminate.
Qed.

Lemma no_session_only_notifies_sender_witness :
  let σ := serverWith None [teacherWs; studentWs] in
  let σ' := snd (onMessage runtime0 teacherWs (eventFrame "DONE") σ) in
  activeSession σ' = None ∧ Attendances σ' = []
  ∧ wire σ' = [(1, render (errorMessage "No active attendance session"))].
Proof.
  intros σ σ'.
  destruct (no_session_only_notifies_sender runtime0 teacherWs
              {| event := "DONE"; data := None |} σ TEACHER eq_refl eq_refl)
    as (_ & H1 & _ & _ & H2 & H3).
  split; [exact H1|]. split; [exact H2|exact H3].
Defined.

Lemma student_mark_is_refused_witness :
  let σ := serverWith (Some (sessionOf ∅)) [teacherWs; studentWs] in
  let σ' := snd (onMessage runtime0 studentWs (markFrame presentMark) σ) in
  activeSession σ' = Some (sessionOf ∅)
  ∧ wire σ' = [(2, render (errorMessage "Forbidden, teacher event only"))].
Proof.
  intros σ σ'.
  destruct (student_mark_is_refused runtime0 studentWs
              {| event := "ATTENDANCE_MARKED"; data := Some presentMark |} σ
              eq_refl eq_refl)
    as (_ & H1 & _ & _ & _ & H2).
  split; [exact H1|exact H2].
Defined.

(** ** C2, C8 and C9 *)

(** C2, counterexample.  One Mark with status "late" for s100: the summary
    broadcast is present 0, absent 0, total 1. *)
Lemma summary_with_other_status_does_not_add_up :
  let σ := serverWith (Some (sessionOf ∅)) [teacherWs] in
  let σ1 := deliver runtime0 σ (teacherWs, markFrame lateMark) in
  let s := summarize (attendanceOf σ1) in
  s = {| present := 0; absent := 0; total := 1 |}
  ∧ present s + absent s ≠ total s
  ∧ onMessage runtime0 teacherWs (eventFrame "TODAY_SUMMARY") σ1
    = broadcast runtime0
        (summaryMessage {| present := 0; absent := 0; total := 1 |}) σ1.
Proof.
  intros σ σ1 s. split; [vm_compute; reflexivity|]. split.
  - vm_compute. discriminate.
  - vm_compute. reflexivity.
Qed.

Lemma summary_after_marks_witness :
  let σ := serverWith (Some (sessionOf ∅)) [teacherWs] in
  let marks := [(teacherWs, presentMark); (teacherWs, lateMark)] in
  let s := summarize (attendanceOf (foldl (deliver runtime0) σ (markFrames marks))) in
  total s = size (dom (∅ : gmap string string) ∪ studentsMarked marks)
  ∧ (present s + absent s ≤ total s)%nat.
Proof.
  intros σ marks s.
  destruct (summary_after_marks runtime0 marks σ (sessionOf ∅) teacherWs eq_refl)
    as (_ & H1 & H2 & _).
  - repeat constructor.
  - repeat constructor; vm_compute; discriminate.
  - reflexivity.
  - split; [exact H1|exact H2].
Defined.

(** C8, counterexample.  Two Marks for the id [__proto__] leave the
    attendance object without an entry for it. *)
Lemma mark_of_proto_is_not_stored :
  let σ := serverWith (Some (sessionOf ∅)) [teacherWs] in
  let mark st := markFrame {| studentId := "__proto__"; status := st |} in
  let σ2 := foldl (deliver runtime0) σ
              [(teacherWs, mark "present"); (teacherWs, mark "absent")] in
  activeSession σ2 = Some (sessionOf ∅)
  ∧ attendanceOf σ2 !! "__proto__" = None
  ∧ attendanceOf σ2 !! "__proto__" ≠ Some "absent".
Proof.
  intros σ mark σ2. split; [vm_compute; reflexivity|]. split.
  - vm_compute. reflexivity.
  - vm_compute. discriminate.
Qed.

Lemma mark_upserts_one_entry_witness :
  let σ := serverWith (Some (sessionOf ∅)) [teacherWs] in
  let mark st := markFrame {| studentId := s100; status := st |} in
  attendanceOf (foldl (deliver runtime0) σ
                  [(teacherWs, mark "absent"); (teacherWs, mark "present")])
    !! s100 = Some "present".
Proof.
  intros σ mark.
  destruct (mark_upserts_one_entry runtime0 teacherWs teacherWs σ (sessionOf ∅)
              s100 "absent" "present" eq_refl eq_refl eq_refl)
    as (H & _).
  - vm_compute. discriminate.
  - exact H.
Defined.

(** C9, counterexample.  A Mark with status "late" is stored, and the
    DONE that follows persists nothing: [insertMany] rejects the batch, the
    collection stays empty and the session stays active. *)
Lemma late_status_is_not_persisted :
  let σ := serverWith (Some (sessionOf ∅)) [teacherWs] in
  let σ1 := deliver runtime0 σ (teacherWs, markFrame lateMark) in
  let result := onMessage runtime0 teacherWs (eventFrame "DONE") σ1 in
  attendanceOf σ1 !! s100 = Some "late"
  ∧ fst result = inl ValidationError
  ∧ Attendances (snd result) = []
  ∧ activeSession (snd result) ≠ None.
Proof.
  intros σ σ1 result. split; [vm_compute; reflexivity|].
  split; [vm_compute; reflexivity|]. split; [vm_compute; reflexivity|].
  vm_compute. discriminate.
Qed.

Lemma status_is_not_validated_by_mark_witness :
  let σ := serverWith (Some (sessionOf ∅)) [teacherWs] in
  let σ1 := deliver runtime0 σ (teacherWs, markFrame lateMark) in
  let result := onMessage runtime0 teacherWs (eventFrame "DONE") σ1 in
  attendanceOf σ1 = {[ s100 := "late" ]}
  ∧ total (summarize (attendanceOf σ1)) = 1
  ∧ present (summarize (attendanceOf σ1)) = 0
  ∧ Attendances (snd result) = []
  ∧ is_Some (activeSession (snd result)).
Proof.
  intros σ σ1 result.
  destruct (status_is_not_validated_by_mark runtime0 teacherWs σ (sessionOf ∅)
              lateMark eq_refl eq_refl)
    as (_ & H1 & _ & H2).
  - vm_compute. discriminate.
  - destruct H2 as (H3 & H4 & _ & _ & _ & H5).
    { vm_compute. intros H. repeat (apply elem_of_cons in H as [H|H]; [discriminate|]).
      by apply elem_of_nil in H. }
    destruct (H5 ltac:(discriminate) teacherWs eq_refl) as (_ & H6 & _ & H7 & _).
    subst σ1 result. split; [exact H1|].
    split; [rewrite H1, H3; vm_compute; reflexivity|].
    split; [rewrite H1, H4; vm_compute; reflexivity|].
    split; [exact H6|exact H7].
Defined.

(** ** C1 *)

(** C1, counterexample.  A teacher marks s100 with the empty status and
    sends DONE: the finalized object and the stored document give s100
    "absent", not the status that was marked.  And after a Mark of s100 with
    status "late", DONE throws and leaves the session active. *)
Lemma finalize_neither_keeps_every_mark_nor_always_clears :
  let σ := serverWith (Some (sessionOf ∅)) [teacherWs] in
  let emptyMark := {| studentId := s100; status := EmptyString |} in
  let σ1 := deliver runtime0 σ (teacherWs, markFrame emptyMark) in
  let result1 := onMessage runtime0 teacherWs (eventFrame "DONE") σ1 in
  let σ2 := deliver runtime0 σ (teacherWs, markFrame lateMark) in
  let result2 := onMessage runtime0 teacherWs (eventFrame "DONE") σ2 in
  (attendanceOf σ1 !! s100 = Some EmptyString
   ∧ markUnmarkedAbsent (attendanceOf σ1) (studentIds c101) !! s100
     = Some "absent"
   ∧ markUnmarkedAbsent (attendanceOf σ1) (studentIds c101) !! s100
     ≠ attendanceOf σ1 !! s100
   ∧ fst result1 = inr tt
   ∧ {| doc_classId := 4097%N; doc_studentId := 256%N; doc_status := "absent" |}
       ∈ Attendances (snd result1))
  ∧ (attendanceOf σ2 !! s100 = Some "late"
     ∧ fst result2 = inl ValidationError
     ∧ activeSession (snd result2) ≠ None).
Proof.
  intros σ emptyMark σ1 result1 σ2 result2. split.
  - split; [vm_compute; reflexivity|]. split; [vm_compute; reflexivity|].
    split; [vm_compute; discriminate|]. split; [vm_compute; reflexivity|].
    vm_compute. right. left.
  - split; [vm_compute; reflexivity|].
    split; [vm_compute; reflexivity|]. vm_compute. discriminate.
Qed.

Lemma finalize_defaults_then_clears_witness :
  let session := sessionOf {[ s100 := "present" ]} in
  let σ := serverWith (Some session) [teacherWs; studentWs] in
  let result := onMessage runtime0 teacherWs (eventFrame "DONE") σ in
  ClassModel_findById runtime0 (classId session) σ = (inr (Some c101), σ)
  ∧ markUnmarkedAbsent (attendance session) (studentIds c101) !! s101
    = Some "absent"
  ∧ activeSession (snd result) = None.
Proof.
  intros session σ result.
  assert (ClassModel_findById runtime0 (classId session) σ = (inr (Some c101), σ))
    as Hfind by (vm_compute; reflexivity).
  destruct (finalize_defaults_then_clears runtime0 teacherWs σ session c101
              eq_refl eq_refl Hfind) as (H1 & _ & H2 & _).
  split; [exact Hfind|]. split.
  - assert (257%N ∈ studentIds c101) as Hin by (right; left).
    exact (H1 257%N Hin).
  - refine (proj1 (proj2 (H2 _ _))). vm_compute. reflexivity.
Defined.

(** ** C6, C10 and C7 *)



Lemma self_status_has_no_enrolment_check_witness :
  let session := sessionOf {[ s100 := "present" ]} in
  let σ := {| activeSession := Some session; allWs := [teacherWs; studentWs];
              Classes := []; Attendances := []; wire := [] |} in
  let result := onMessage runtime0 studentWs (eventFrame "MY_ATTENDANCE") σ in
  fst result = inr tt
  ∧ wire (snd result) = [(2, render (statusReply "present"))]
  ∧ activeSession (snd result) = Some session.
Proof.
  intros session σ result.
  destruct (self_status_has_no_enrolment_check runtime0 studentWs
              {| event := "MY_ATTENDANCE"; data := None |} session
              [teacherWs; studentWs] [] [] [] eq_refl eq_refl)
    as (H1 & H2 & H3 & _).
  split; [exact H1|]. split; [exact H2|exact H3].
Defined.

Lemma start_replaces_session_witness :
  let given := oid_toString 4097%N in
  let req := {| authorization := Some "Bearer teacher-token";
                body := VObject [("classId", VString given)] |} in
  let σ := serverWith (Some (sessionOf {[ s100 := "present" ]})) [teacherWs] in
  let σ' := snd (post_attendance_start runtime0 "2025-03-12T09:00:00.000Z" req σ) in
  authMiddleware runtime0 req = inr teacher1
  ∧ activeSession σ'
    = Some {| classId := given; startedAt := "2025-03-12T09:00:00.000Z";
              attendance := ∅ |}
  ∧ Attendances σ' = [] ∧ wire σ' = [].
Proof.
  intros given req σ σ'.
  assert (authMiddleware runtime0 req = inr teacher1) as Hauth
    by (vm_compute; reflexivity).
  assert (ClassModel_findById runtime0 given σ = (inr (Some c101), σ)) as Hfind
    by (vm_compute; reflexivity).
  destruct (start_replaces_session runtime0 "2025-03-12T09:00:00.000Z" req σ
              teacher1 given c101 Hauth eq_refl eq_refl Hfind eq_refl)
    as (_ & _ & H1 & _ & _ & H2 & H3).
  split; [exact Hauth|]. split; [exact H1|]. split; [exact H2|exact H3].
Defined.

(** * Further properties of the endpoint and of the routes *)

Local Open Scope list_scope.
Local Set Warnings "-clear-no-such-hyp".

Lemma ws_send_socket w payload :
  ws_send w payload = socket_send (wsId w) (onSend w) payload.
Proof. done. Qed.

Lemma filter_other_ids_all (ws : WebSocket) (l : list WebSocket) :
  (∀ w, w ∈ l → wsId w ≠ wsId ws) →
  List.filter (λ w, negb (Nat.eqb (wsId w) (wsId ws))) l = l.
Proof.
  induction l as [|w l IH]; intros H; [done|]. simpl.
  assert (wsId w ≠ wsId ws) as Hw by (apply H; left).
  apply Nat.eqb_neq in Hw. rewrite Hw. simpl. f_equal.
  apply IH. intros w' Hw'. apply H. by right.
Qed.

Lemma List_filter_sublist {A} (f : A → bool) (l : list A) :
  List.filter f l `sublist_of` l.
Proof.
  induction l as [|x l IH]; simpl; [done|].
  destruct (f x); [by apply sublist_skip|by apply sublist_cons].
Qed.

Lemma beforeFirstRaise_all l : existsb raises l = false → beforeFirstRaise l = l.
Proof.
  induction l as [|w l IH]; simpl; [done|].
  destruct (raises w); simpl; [done|]. intros H. by rewrite IH.
Qed.

Lemma beforeFirstRaise_app l1 l2 :
  existsb raises l1 = false →
  beforeFirstRaise (l1 ++ l2) = l1 ++ beforeFirstRaise l2.
Proof.
  induction l1 as [|w l1 IH]; simpl; [done|].
  destruct (raises w); simpl; [done|]. intros H. by rewrite IH.
Qed.

Lemma framesOf_app payload l1 l2 :
  framesOf payload (l1 ++ l2) = framesOf payload l1 ++ framesOf payload l2.
Proof. unfold framesOf. by rewrite List.filter_app, map_app. Qed.

Lemma beforeFirstRaise_sublist l w : w ∈ beforeFirstRaise l → w ∈ l.
Proof.
  induction l as [|w' l IH]; simpl; [done|].
  destruct (raises w'); [by intros ?%elem_of_nil|].
  intros [->|H]%elem_of_cons; [left|right; auto].
Qed.

Section Connections.

Variable rt : Runtime.

(** X1.  A connection whose token is missing or does not verify is never
    registered: the handler offers that socket the one frame "Unauthorized
    or invalid token" and closes it (when that [send] raises, the exception
    leaves the handler instead); the sockets, the session and the
    collections are as before, and no other socket is written to. *)
Theorem connection_with_bad_token_is_refused
    (id : nat) (behaviour : SendBehaviour) (token : option string) (σ : Server) :
  token ≫= jwt_verify rt = None →
  let result := onConnection rt id behaviour token σ in
  let σ' := snd result in
  fst result = match behaviour with
               | Throws => inl SendFailure
               | _ => inr None
               end
  ∧ allWs σ' = allWs σ ∧ activeSession σ' = activeSession σ
  ∧ Classes σ' = Classes σ ∧ Attendances σ' = Attendances σ
  ∧ wire σ' =
      (wire σ ++
       match behaviour with
       | Delivers =>
           [(id, JSON_stringify rt (errorMessage "Unauthorized or invalid token"))]
       | _ => []
       end)%list.
Proof.
  intros Hbad result σ'. subst σ' result. unfold onConnection. rewrite Hbad.
  unfold bind, socket_send. destruct behaviour; simpl; by rewrite ?app_nil_r.
Qed.

(** X2.  A connection with a verified token is registered last, bound to
    the user of the token, and is sent nothing; from then on a broadcast
    that no earlier socket interrupts offers it the payload after all the
    others. *)
Theorem connection_is_registered_last
    (id : nat) (behaviour : SendBehaviour) (token : string) (payload : User)
    (message : JsValue) (σ : Server) :
  jwt_verify rt token = Some payload →
  let ws := {| wsId := id; user := payload; onSend := behaviour |} in
  let σ' := snd (onConnection rt id behaviour (Some token) σ) in
  onConnection rt id behaviour (Some token) σ
    = (inr (Some ws), set_allWs (allWs σ ++ [ws]) σ)
  ∧ wire σ' = wire σ
  ∧ (existsb raises (allWs σ) = false →
     broadcast rt message σ' =
       (if raises ws then inl SendFailure else inr tt,
        append_wire
          (framesOf (JSON_stringify rt message) (allWs σ)
           ++ (if delivers ws then [(id, JSON_stringify rt message)] else []))
          σ')).
Proof.
  intros Hok ws σ'.
  assert (onConnection rt id behaviour (Some token) σ
          = (inr (Some ws), set_allWs (allWs σ ++ [ws]) σ)) as Hrun.
  { unfold onConnection. simpl. by rewrite Hok. }
  subst σ'. rewrite Hrun. split; [done|]. split; [done|].
  intros Hquiet. unfold broadcast. rewrite forEach_send. simpl.
  rewrite existsb_app, Hquiet. simpl. rewrite orb_false_r.
  rewrite (beforeFirstRaise_app _ _ Hquiet), framesOf_app.
  unfold raises, delivers, framesOf. simpl.
  by destruct behaviour.
Qed.

(** X3.  Closing a socket removes exactly the registered sockets with its
    identity and keeps the others in their order; closing again, or
    closing a socket that was never registered, changes nothing; and a
    later broadcast writes no frame to the closed socket. *)
Theorem close_unregisters_the_socket
    (ws : WebSocket) (message : JsValue) (σ : Server) :
  let σ' := snd (onClose ws σ) in
  (∀ w, w ∈ allWs σ' ↔ w ∈ allWs σ ∧ wsId w ≠ wsId ws)
  ∧ (allWs σ' `sublist_of` allWs σ)
  ∧ snd (onClose ws σ') = σ'
  ∧ ((∀ w, w ∈ allWs σ → wsId w ≠ wsId ws) → σ' = σ)
  ∧ activeSession σ' = activeSession σ ∧ Classes σ' = Classes σ
  ∧ Attendances σ' = Attendances σ ∧ wire σ' = wire σ
  ∧ (∀ frame,
       frame ∈ framesOf (JSON_stringify rt message) (beforeFirstRaise (allWs σ')) →
       fst frame ≠ wsId ws).
Proof.
  intros σ'.
  assert (∀ w, w ∈ allWs σ' ↔ w ∈ allWs σ ∧ wsId w ≠ wsId ws) as Hmem.
  { intros w. subst σ'. simpl. rewrite list_elem_of_In, filter_In.
    rewrite <- list_elem_of_In, negb_true_iff, Nat.eqb_neq. done. }
  split; [done|]. split.
  { subst σ'. simpl. apply List_filter_sublist. }
  split.
  { subst σ'. unfold onClose, update. simpl. unfold set_allWs. simpl.
    f_equal. apply filter_other_ids_all. intros w Hw.
    apply list_elem_of_In, filter_In in Hw as [_ Hw].
    by apply negb_true_iff, Nat.eqb_neq in Hw. }
  split.
  { intros Hnone. subst σ'. unfold onClose, update. simpl.
    rewrite (filter_other_ids_all _ _ Hnone). by destruct σ. }
  repeat (split; [done|]).
  intros frame Hframe. unfold framesOf in Hframe.
  apply list_elem_of_In, in_map_iff in Hframe as (w & <- & Hw).
  apply filter_In in Hw as [Hw _]. apply list_elem_of_In in Hw.
  apply beforeFirstRaise_sublist, Hmem in Hw. simpl. tauto.
Qed.

(** X4.  Connecting and then closing is a round trip: when no registered
    socket has the identity of the new one, the server after the close is
    the server before the connection. *)
Theorem connect_then_close_restores
    (id : nat) (behaviour : SendBehaviour) (token : string) (payload : User)
    (σ : Server) :
  jwt_verify rt token = Some payload →
  (∀ w, w ∈ allWs σ → wsId w ≠ id) →
  let ws := {| wsId := id; user := payload; onSend := behaviour |} in
  snd (onClose ws (snd (onConnection rt id behaviour (Some token) σ))) = σ.
Proof.
  intros Hok Hfresh ws. unfold onConnection. simpl. rewrite Hok.
  unfold bind, update, onClose, ret. simpl. unfold set_allWs. simpl.
  rewrite List.filter_app. simpl. rewrite Nat.eqb_refl. simpl.
  rewrite app_nil_r, (filter_other_ids_all ws) by done. by destruct σ.
Qed.

End Connections.

(** ** What frames can and cannot change *)

Lemma sessionContinues_refl s : sessionContinues s s.
Proof. by destruct s. Qed.

Lemma sessionContinues_trans a b c :
  sessionContinues a b → sessionContinues b c → sessionContinues a c.
Proof.
  destruct a as [a|], b as [b|], c as [c|]; simpl; try done.
  intros (-> & -> & H1) (-> & -> & H2). repeat split. set_solver.
Qed.

Lemma evolves_refl σ : evolves σ σ.
Proof. repeat split; try done. apply sessionContinues_refl. Qed.

Lemma evolves_trans σ1 σ2 σ3 : evolves σ1 σ2 → evolves σ2 σ3 → evolves σ1 σ3.
Proof.
  intros (A1 & B1 & C1 & D1 & E1) (A2 & B2 & C2 & D2 & E2).
  repeat split; try congruence.
  - by etrans.
  - by etrans.
  - by eapply sessionContinues_trans.
Qed.

Lemma evolves_append_wire frames σ : evolves σ (append_wire frames σ).
Proof.
  repeat split; try done.
  - by apply prefix_app_r.
  - apply sessionContinues_refl.
Qed.

Lemma evolves_ws_send w payload σ : evolves σ (snd (ws_send w payload σ)).
Proof.
  rewrite ws_send_run. destruct (onSend w); simpl;
    [apply evolves_append_wire|apply evolves_refl|apply evolves_refl].
Qed.

Lemma js_set_dom att k v : dom att ⊆ dom (js_set att k v).
Proof.
  unfold js_set. case_bool_decide; [done|]. rewrite dom_insert_L. set_solver.
Qed.

Lemma markUnmarkedAbsent_dom roster att :
  dom (markUnmarkedAbsent att roster) = dom att ∪ rosterKeys roster.
Proof.
  revert att. induction roster as [|o roster IH]; intros att.
  - unfold rosterKeys. simpl. by rewrite (right_id_L ∅ (∪)).
  - unfold markUnmarkedAbsent. simpl. fold (markUnmarkedAbsent (markAbsentIfUnmarked att o) roster).
    rewrite IH. unfold rosterKeys. simpl.
    assert (dom (markAbsentIfUnmarked att o) = dom att ∪ {[oid_toString o]}) as ->.
    { rewrite markAbsentIfUnmarked_run.
      destruct (att !! oid_toString o) as [v|] eqn:E.
      - assert (oid_toString o ∈ dom att) by (apply elem_of_dom; eauto).
        case_bool_decide; rewrite ?dom_insert_L; set_solver.
      - rewrite dom_insert_L. set_solver. }
    set_solver.
Qed.

Lemma markUnmarkedAbsent_nonempty roster att o :
  o ∈ roster →
  ∃ v, markUnmarkedAbsent att roster !! oid_toString o = Some v ∧ v ≠ EmptyString.
Proof.
  intros Hin. destruct (att !! oid_toString o) as [v|] eqn:E.
  - destruct (decide (v = EmptyString)) as [->|Hv].
    + exists "absent". split; [|done].
      apply markUnmarkedAbsent_defaults; [done|]. intros v. rewrite E.
      intros [= <-]. by left.
    + exists v. split; [|done]. by apply markUnmarkedAbsent_keeps.
  - exists "absent". split; [|done].
    apply markUnmarkedAbsent_defaults; [done|]. intros v. by rewrite E.
Qed.

Lemma markUnmarkedAbsent_settled roster att :
  (∀ o, o ∈ roster →
     ∃ v, att !! oid_toString o = Some v ∧ v ≠ EmptyString) →
  markUnmarkedAbsent att roster = att.
Proof.
  induction roster as [|o roster IH]; intros H; [done|].
  unfold markUnmarkedAbsent. simpl.
  assert (markAbsentIfUnmarked att o = att) as ->.
  { rewrite markAbsentIfUnmarked_run.
    destruct (H o) as (v & -> & Hv); [left|]. by rewrite bool_decide_eq_false_2. }
  apply IH. intros o' Ho'. apply H. by right.
Qed.

Lemma attendanceSchema_cast_Some rt r d :
  attendanceSchema_cast rt r = Some d →
  rec_status r ∈ AttendanceStatus_values ∧ doc_status d = rec_status r ∧
  castObjectId rt (rec_classId r) = Some (doc_classId d) ∧
  castObjectId rt (rec_studentId r) = Some (doc_studentId d).
Proof.
  unfold attendanceSchema_cast.
  destruct (castObjectId rt (rec_classId r)); [|done].
  destruct (castObjectId rt (rec_studentId r)); [|done].
  case_bool_decide; [|done]. by intros [= <-].
Qed.

Lemma status_in_values v :
  v ∈ AttendanceStatus_values ↔ v = "present" ∨ v = "absent".
Proof.
  unfold AttendanceStatus_values, PRESENT, ABSENT.
  rewrite !elem_of_cons, elem_of_nil. tauto.
Qed.

Section Frames.

Variable rt : Runtime.

Lemma evolves_sendError ws reply σ : evolves σ (snd (sendError rt ws reply σ)).
Proof. apply evolves_ws_send. Qed.

Lemma evolves_broadcast message σ : evolves σ (snd (broadcast rt message σ)).
Proof. rewrite broadcast_run. apply evolves_append_wire. Qed.

Lemma findById_outcome id σ :
  ClassModel_findById rt id σ = (inl CastError, σ)
  ∨ ∃ classRoom, ClassModel_findById rt id σ = (inr classRoom, σ).
Proof.
  unfold ClassModel_findById. destruct (castObjectId rt id); eauto.
Qed.

Lemma finalAttendance_dom session classRoom :
  dom (attendance session) ⊆ dom (finalAttendance session classRoom).
Proof.
  destruct classRoom as [c|]; simpl; [|done].
  rewrite markUnmarkedAbsent_dom. set_solver.
Qed.

Lemma evolves_finalizeSession σ session :
  activeSession σ = Some session →
  evolves σ (snd (finalizeSession rt session σ)).
Proof.
  intros Hs. destruct (findById_outcome (classId session) σ) as [E|[classRoom E]].
  - unfold finalizeSession, bind at 1. rewrite E. apply evolves_refl.
  - pose proof (finalizeSession_run rt σ session classRoom E) as Hrun.
    simpl in Hrun. fold (finalAttendance session classRoom) in Hrun.
    rewrite Hrun.
    destruct (mapM _ _) as [docs|].
    + eapply evolves_trans; [|apply evolves_broadcast].
      repeat split; simpl; try done; [by apply prefix_app_r|].
      by destruct (activeSession σ).
    + simpl. repeat split; simpl; try done. rewrite Hs. simpl.
      repeat split. apply finalAttendance_dom.
Qed.

Lemma evolves_onMessage ws msg σ : evolves σ (snd (onMessage rt ws msg σ)).
Proof.
  destruct msg as [| |message]; [apply evolves_sendError|apply evolves_refl|].
  unfold onMessage.
  destruct (String.eqb (event message) "ATTENDANCE_MARKED").
  { unfold case_ATTENDANCE_MARKED. case_bool_decide; [apply evolves_sendError|].
    destruct (activeSession σ) as [session|] eqn:Hs; [|apply evolves_sendError].
    destruct (data message) as [d|]; [|apply evolves_refl].
    eapply evolves_trans; [|apply evolves_broadcast].
    repeat split; simpl; try done. rewrite Hs. simpl. repeat split.
    apply js_set_dom. }
  destruct (String.eqb (event message) "TODAY_SUMMARY").
  { unfold case_TODAY_SUMMARY. case_bool_decide; [apply evolves_sendError|].
    destruct (activeSession σ); [apply evolves_broadcast|apply evolves_sendError]. }
  destruct (String.eqb (event message) "MY_ATTENDANCE").
  { unfold case_MY_ATTENDANCE. case_bool_decide; [apply evolves_sendError|].
    destruct (activeSession σ); [apply evolves_ws_send|apply evolves_sendError]. }
  destruct (String.eqb (event message) "DONE"); [|apply evolves_sendError].
  unfold case_DONE. case_bool_decide; [apply evolves_sendError|].
  destruct (activeSession σ) as [session|] eqn:Hs; [|apply evolves_sendError].
  by apply evolves_finalizeSession.
Qed.

Lemma evolves_deliver_all inputs σ : evolves σ (foldl (deliver rt) σ inputs).
Proof.
  revert σ. induction inputs as [|[w msg] inputs IH]; intros σ.
  - apply evolves_refl.
  - simpl. eapply evolves_trans; [|apply IH]. apply evolves_onMessage.
Qed.

(** X5.  Whatever frames arrive on whatever sockets, the message handler
    never changes the set of registered sockets or the Classes collection,
    and it only ever appends: the documents stored and the frames written
    before are still there, in place, afterwards. *)
Theorem frames_only_append
    (inputs : list (WebSocket * Frame)) (σ : Server) :
  let σ' := foldl (deliver rt) σ inputs in
  allWs σ' = allWs σ ∧ Classes σ' = Classes σ
  ∧ Attendances σ `prefix_of` Attendances σ'
  ∧ wire σ `prefix_of` wire σ'.
Proof.
  intros σ'. destruct (evolves_deliver_all inputs σ) as (A & B & C & D & _).
  done.
Qed.

(** X6.  No frame starts a session, and a session that is still active
    after any sequence of frames is the same session: same class id, same
    start time, and every student that had an entry still has one. *)
Theorem frames_keep_the_session_identity
    (inputs : list (WebSocket * Frame)) (σ : Server) :
  let σ' := foldl (deliver rt) σ inputs in
  (activeSession σ = None → activeSession σ' = None)
  ∧ (∀ s s', activeSession σ = Some s → activeSession σ' = Some s' →
       classId s' = classId s ∧ startedAt s' = startedAt s
       ∧ dom (attendance s) ⊆ dom (attendance s')).
Proof.
  intros σ'. destruct (evolves_deliver_all inputs σ) as (_ & _ & _ & _ & E).
  fold σ' in E. split.
  - intros Hnone. rewrite Hnone in E. by destruct (activeSession σ').
  - intros s s' Hs Hs'. by rewrite Hs, Hs' in E.
Qed.

End Frames.

(** ** The other answers of the message handler *)

Lemma Forall2_right {A B} (R : A → B → Prop) (P : B → Prop) l k :
  Forall2 R l k → (∀ x y, x ∈ l → R x y → P y) → Forall P k.
Proof.
  induction 1 as [|x y l k HR HF IH]; intros H; constructor.
  - apply (H x); [left|done].
  - apply IH. intros x' y' Hx'. apply H. by right.
Qed.

Lemma Forall2_pick {A B} (R : A → B → Prop) l k x :
  Forall2 R l k → x ∈ l → ∃ y, y ∈ k ∧ R x y.
Proof.
  induction 1 as [|x' y l k HR HF IH]; intros Hx.
  - by apply elem_of_nil in Hx.
  - apply elem_of_cons in Hx as [->|Hx].
    + exists y. split; [left|done].
    + destruct (IH Hx) as (y' & Hy' & HR'). exists y'. split; [by right|done].
Qed.

Lemma attendanceRecords_inv classId att r :
  r ∈ attendanceRecords classId att →
  rec_classId r = classId ∧ att !! rec_studentId r = Some (rec_status r).
Proof.
  unfold attendanceRecords, Object_entries.
  intros ([k v] & <- & Hkv)%list_elem_of_In%in_map_iff.
  apply list_elem_of_In, elem_of_map_to_list in Hkv. done.
Qed.

Lemma attendanceRecords_length classId att :
  length (attendanceRecords classId att) = size att.
Proof.
  unfold attendanceRecords, Object_entries.
  by rewrite length_map, length_map_to_list.
Qed.

Section Answers.

Variable rt : Runtime.

(** X7.  A frame that is not JSON, and an envelope whose event is none of
    the four protocol events, are answered by one error notification to the
    sender ("Invalid message format", "Unknown event"), whatever the
    sender's role and whether or not a session is active; nothing else
    changes. *)
Theorem unusable_frame_only_notifies_sender
    (ws : WebSocket) (msg : Frame) (σ : Server) :
  (msg = Unparseable ∨ ∃ m, msg = Parsed m ∧ requiredRole (event m) = None) →
  let reply := match msg with
               | Unparseable => "Invalid message format"
               | _ => "Unknown event"
               end in
  let σ' := snd (onMessage rt ws msg σ) in
  onMessage rt ws msg σ = sendError rt ws reply σ
  ∧ activeSession σ' = activeSession σ ∧ allWs σ' = allWs σ
  ∧ Classes σ' = Classes σ ∧ Attendances σ' = Attendances σ
  ∧ wire σ' =
      wire σ ++ (if delivers ws
                 then [(wsId ws, JSON_stringify rt (errorMessage reply))]
                 else []).
Proof.
  intros Hmsg reply σ'.
  assert (onMessage rt ws msg σ = sendError rt ws reply σ) as Hrun.
  { destruct Hmsg as [->|(m & -> & Hnone)]; [done|].
    subst reply. unfold onMessage. unfold requiredRole in Hnone.
    destruct (String.eqb (event m) "ATTENDANCE_MARKED"); [done|].
    destruct (String.eqb (event m) "TODAY_SUMMARY"); [done|].
    destruct (String.eqb (event m) "MY_ATTENDANCE"); [done|].
    by destruct (String.eqb (event m) "DONE"). }
  subst σ'. rewrite Hrun. split; [done|]. apply sendError_frame.
Qed.

(** X8.  Each protocol event sent on a socket that does not hold the role
    the event requires is answered by the role violation alone, with or
    without an active session: the session, the collections and the other
    sockets are untouched. *)
Theorem wrong_role_is_refused
    (ws : WebSocket) (message : Message) (σ : Server) (r : Role) :
  requiredRole (event message) = Some r →
  role (user ws) ≠ r →
  let σ' := snd (onMessage rt ws (Parsed message) σ) in
  onMessage rt ws (Parsed message) σ = sendError rt ws (forbidden r) σ
  ∧ activeSession σ' = activeSession σ ∧ allWs σ' = allWs σ
  ∧ Classes σ' = Classes σ ∧ Attendances σ' = Attendances σ
  ∧ wire σ' =
      wire σ ++ (if delivers ws
                 then [(wsId ws, JSON_stringify rt (errorMessage (forbidden r)))]
                 else []).
Proof.
  intros Hreq Hrole σ'.
  assert (onMessage rt ws (Parsed message) σ = sendError rt ws (forbidden r) σ)
    as Hrun.
  { unfold onMessage, requiredRole in *.
    destruct (String.eqb (event message) "ATTENDANCE_MARKED").
    { injection Hreq as <-. unfold case_ATTENDANCE_MARKED.
      by rewrite bool_decide_eq_true_2. }
    destruct (String.eqb (event message) "TODAY_SUMMARY").
    { injection Hreq as <-. unfold case_TODAY_SUMMARY.
      by rewrite bool_decide_eq_true_2. }
    destruct (String.eqb (event message) "MY_ATTENDANCE").
    { injection Hreq as <-. unfold case_MY_ATTENDANCE.
      by rewrite bool_decide_eq_true_2. }
    destruct (String.eqb (event message) "DONE"); [|done].
    injection Hreq as <-. unfold case_DONE. by rewrite bool_decide_eq_true_2. }
  subst σ'. rewrite Hrun. split; [done|]. apply sendError_frame.
Qed.

(** X9.  A Mark envelope that carries no [data] passes the two guards
    first: from a student, or without a session, it gets the usual error
    notification; from a teacher in an active session the handler throws,
    and then nothing is stored and nothing is sent. *)
Theorem mark_without_data
    (ws : WebSocket) (σ : Server) :
  let message := {| event := "ATTENDANCE_MARKED"; data := None |} in
  onMessage rt ws (Parsed message) σ =
  match role (user ws), activeSession σ with
  | STUDENT, _ => sendError rt ws "Forbidden, teacher event only" σ
  | TEACHER, None => sendError rt ws "No active attendance session" σ
  | TEACHER, Some _ => (inl TypeError, σ)
  end.
Proof.
  intros message. unfold onMessage. simpl. unfold case_ATTENDANCE_MARKED.
  destruct (role (user ws)); simpl; [|done].
  by destruct (activeSession σ).
Qed.

Lemma sendError_keeps ws reply σ :
  let σ' := snd (sendError rt ws reply σ) in
  activeSession σ' = activeSession σ ∧ allWs σ' = allWs σ
  ∧ Classes σ' = Classes σ ∧ Attendances σ' = Attendances σ.
Proof. destruct (sendError_frame rt ws reply σ) as (? & ? & ? & ? & _). done. Qed.

(** X10.  TODAY_SUMMARY and MY_ATTENDANCE are read-only: whoever sends
    them, the session (and its attendance object), the sockets and both
    collections are afterwards what they were. *)
Theorem summary_and_self_status_are_read_only
    (ws : WebSocket) (message : Message) (σ : Server) :
  event message = "TODAY_SUMMARY" ∨ event message = "MY_ATTENDANCE" →
  let σ' := deliver rt σ (ws, Parsed message) in
  activeSession σ' = activeSession σ ∧ allWs σ' = allWs σ
  ∧ Classes σ' = Classes σ ∧ Attendances σ' = Attendances σ.
Proof.
  intros Hev σ'. subst σ'. unfold deliver. cbn [fst snd].
  unfold onMessage. destruct Hev as [-> | ->]; simpl.
  - unfold case_TODAY_SUMMARY. case_bool_decide; [apply sendError_keeps|].
    destruct (activeSession σ) as [s|] eqn:Hs; rewrite <- Hs;
      [apply broadcast_frame|apply sendError_keeps].
  - unfold case_MY_ATTENDANCE. case_bool_decide; [apply sendError_keeps|].
    destruct (activeSession σ) as [s|] eqn:Hs; rewrite <- Hs;
      [|apply sendError_keeps].
    destruct (ws_send_frame ws
      (JSON_stringify rt (myAttendanceMessage
         (js_get (attendance s) (req_userId (user ws))))) σ)
      as (? & ? & ? & ? & _). done.
Qed.

(** X11.  A Finalize that gets through writes what it counts: one document
    per entry of the finalized attendance object, each with status
    "present" or "absent" and with the class of the session, added after
    the documents already stored; so the summary of the DONE broadcast
    always adds up, [present + absent = total], and [total] is the number
    of documents written. *)
Theorem finalize_writes_what_it_counts
    (teacher : WebSocket) (σ : Server) (session : Session)
    (classRoom : option ClassDoc) (docs : list AttendanceDoc) :
  role (user teacher) = TEACHER →
  activeSession σ = Some session →
  ClassModel_findById rt (classId session) σ = (inr classRoom, σ) →
  let final := finalAttendance session classRoom in
  mapM (attendanceSchema_cast rt) (attendanceRecords (classId session) final)
    = Some docs →
  let s := summarize final in
  onMessage rt teacher (eventFrame "DONE") σ =
    broadcast rt (doneMessage s)
      (set_activeSession None (set_Attendances (Attendances σ ++ docs) σ))
  ∧ length docs = total s
  ∧ present s + absent s = total s
  ∧ Forall (λ d, (doc_status d = "present" ∨ doc_status d = "absent")
                 ∧ castObjectId rt (classId session) = Some (doc_classId d))
           docs
  ∧ (∀ k v, final !! k = Some v →
       ∃ d, d ∈ docs ∧ castObjectId rt k = Some (doc_studentId d)
            ∧ doc_status d = v).
Proof.
  intros Hrole Hs Hfind final Hbatch s.
  pose proof (finalizeSession_run rt σ session classRoom Hfind) as Hrun.
  simpl in Hrun. fold (finalAttendance session classRoom) in Hrun.
  fold final in Hrun. rewrite Hbatch in Hrun.
  apply mapM_Some in Hbatch.
  split; [by rewrite (done_run rt _ _ _ Hrole Hs)|].
  split.
  { subst s. rewrite total_is_size, <- (attendanceRecords_length (classId session)).
    symmetry. by eapply Forall2_length. }
  split.
  { apply counts_reach_total, Forall_Object_values. intros k v Hkv.
    destruct (Forall2_pick _ _ _ _ Hbatch
                (attendanceRecords_entry (classId session) final k v Hkv))
      as (d & _ & Hd).
    apply attendanceSchema_cast_Some in Hd as (Hd & _). simpl in Hd.
    by apply status_in_values. }
  split.
  { eapply Forall2_right; [exact Hbatch|]. intros r d Hr Hd. simpl in Hd.
    apply attendanceSchema_cast_Some in Hd as (Hv & Hst & Hc & _).
    apply attendanceRecords_inv in Hr as [Hr _].
    rewrite Hst, <- Hr. split; [by apply status_in_values|done]. }
  intros k v Hkv.
  destruct (Forall2_pick _ _ _ _ Hbatch
              (attendanceRecords_entry (classId session) final k v Hkv))
    as (d & Hin & Hd).
  apply attendanceSchema_cast_Some in Hd as (_ & Hst & _ & Hsid).
  exists d. done.
Qed.

(** X12.  A Finalize with nothing to write (no mark, and no class document
    or an empty roster) stores no document, clears the session and
    broadcasts the summary 0, 0, 0. *)
Theorem finalize_of_an_empty_session
    (teacher : WebSocket) (σ : Server) (session : Session)
    (classRoom : option ClassDoc) :
  role (user teacher) = TEACHER →
  activeSession σ = Some session →
  attendance session = ∅ →
  ClassModel_findById rt (classId session) σ = (inr classRoom, σ) →
  (∀ c, classRoom = Some c → studentIds c = []) →
  onMessage rt teacher (eventFrame "DONE") σ =
    broadcast rt (doneMessage {| present := 0; absent := 0; total := 0 |})
      (set_activeSession None σ).
Proof.
  intros Hrole Hs Hempty Hfind Hroster.
  rewrite (done_run rt _ _ _ Hrole Hs).
  pose proof (finalizeSession_run rt σ session classRoom Hfind) as Hrun.
  simpl in Hrun.
  assert (match classRoom with
          | Some c => markUnmarkedAbsent (attendance session) (studentIds c)
          | None => attendance session
          end = ∅) as Hfinal.
  { destruct classRoom as [c|]; [|done]. by rewrite (Hroster c eq_refl). }
  rewrite Hfinal in Hrun. rewrite Hrun.
  unfold attendanceRecords, Object_entries, summarize, Object_values.
  rewrite map_to_list_empty. simpl.
  unfold set_Attendances, set_activeSession. simpl. by rewrite app_nil_r.
Qed.

(** X13.  Finalize writes once: after a DONE whose batch was stored, the
    session is gone, so a second DONE from any teacher is answered "No
    active attendance session" and the collection keeps exactly the
    documents of the first. *)
Theorem second_finalize_writes_nothing
    (teacher finisher : WebSocket) (σ : Server) (session : Session)
    (classRoom : option ClassDoc) (docs : list AttendanceDoc) :
  role (user teacher) = TEACHER →
  role (user finisher) = TEACHER →
  activeSession σ = Some session →
  ClassModel_findById rt (classId session) σ = (inr classRoom, σ) →
  mapM (attendanceSchema_cast rt)
       (attendanceRecords (classId session) (finalAttendance session classRoom))
    = Some docs →
  let σ1 := deliver rt σ (teacher, eventFrame "DONE") in
  let σ2 := deliver rt σ1 (finisher, eventFrame "DONE") in
  activeSession σ1 = None
  ∧ Attendances σ1 = Attendances σ ++ docs
  ∧ onMessage rt finisher (eventFrame "DONE") σ1
    = sendError rt finisher "No active attendance session" σ1
  ∧ Attendances σ2 = Attendances σ ++ docs
  ∧ activeSession σ2 = None.
Proof.
  intros Hrole Hfin Hs Hfind Hbatch σ1 σ2.
  pose proof (finalizeSession_run rt σ session classRoom Hfind) as Hrun.
  simpl in Hrun. fold (finalAttendance session classRoom) in Hrun.
  rewrite Hbatch in Hrun.
  assert (activeSession σ1 = None ∧ Attendances σ1 = Attendances σ ++ docs)
    as [Hs1 Ha1].
  { subst σ1. unfold deliver. cbn [fst snd].
    rewrite (done_run rt _ _ _ Hrole Hs), Hrun.
    by destruct (broadcast_frame rt
      (doneMessage (summarize (finalAttendance session classRoom)))
      (set_activeSession None (set_Attendances (Attendances σ ++ docs) σ)))
      as (-> & _ & _ & ->). }
  assert (onMessage rt finisher (eventFrame "DONE") σ1
          = sendError rt finisher "No active attendance session" σ1) as Hrun2.
  { unfold onMessage, eventFrame. simpl. unfold case_DONE.
    by rewrite Hfin, Hs1. }
  split; [done|]. split; [done|]. split; [done|].
  assert (σ2 = snd (sendError rt finisher "No active attendance session" σ1))
    as Hσ2.
  { subst σ2. unfold deliver. cbn [fst snd]. by rewrite Hrun2. }
  destruct (sendError_keeps finisher "No active attendance session" σ1)
    as (A & _ & _ & B).
  rewrite Hσ2. split; [by rewrite B|by rewrite A].
Qed.

(** X14.  The attendance object after the defaulting loop has an entry for
    exactly the students that were marked or are on the roster, every
    roster student has a non-empty status, and running the loop again
    changes nothing. *)
Theorem defaulting_completes_the_roster
    (att : gmap string string) (roster : list ObjectId) :
  let final := markUnmarkedAbsent att roster in
  dom final = dom att ∪ rosterKeys roster
  ∧ total (summarize final) = size (dom att ∪ rosterKeys roster)
  ∧ (∀ o, o ∈ roster →
       ∃ v, final !! oid_toString o = Some v ∧ v ≠ EmptyString)
  ∧ markUnmarkedAbsent final roster = final.
Proof.
  intros final. split; [apply markUnmarkedAbsent_dom|]. split.
  { rewrite total_is_size, <- markUnmarkedAbsent_dom. by rewrite size_dom. }
  split; [intros o Ho; by apply markUnmarkedAbsent_nonempty|].
  apply markUnmarkedAbsent_settled. intros o Ho.
  by apply markUnmarkedAbsent_nonempty.
Qed.

End Answers.

(** ** The middlewares and the refusals of POST /attendance/start *)

Lemma substring_whole s : String.substring 0 (String.length s) s = s.
Proof. induction s as [|c s IH]; simpl; [done|]. by rewrite IH. Qed.

Lemma upToSpace_spaceFree t : spaceFree t = true → upToSpace t = t.
Proof.
  induction t as [|c t IH]; simpl; [done|].
  destruct (Ascii.eqb c " "); simpl; [done|]. intros H. by rewrite IH.
Qed.

Lemma upToSpace_stops t rest :
  spaceFree t = true → upToSpace (String.append t (String " " rest)) = t.
Proof.
  induction t as [|c t IH]; [done|].
  change (String.append (String c t) (String " " rest))
    with (String c (String.append t (String " " rest))).
  simpl. destruct (Ascii.eqb c " "); simpl; [done|]. intros H. by rewrite IH.
Qed.

Lemma headerToken_Bearer s :
  headerToken (Some (String.append "Bearer " s)) = Some (upToSpace s).
Proof.
  unfold headerToken.
  assert (String.prefix "Bearer " (String.append "Bearer " s) = true) as ->
    by (cbv [String.append]; simpl; by destruct s).
  assert (String.length (String.append "Bearer " s) - 7 = String.length s) as ->
    by (cbv [String.append]; simpl; lia).
  cbv [String.append]. simpl. by rewrite substring_whole.
Qed.

Section Access.

Variable rt : Runtime.

Lemma authMiddleware_token h b :
  authMiddleware rt {| authorization := Some h; body := b |} =
  match headerToken (Some h) with
  | Some token =>
      if bool_decide (token = EmptyString) then inl unauthorized
      else match jwt_verify rt token with
           | Some u => inr u
           | None => inl unauthorized
           end
  | None => inl unauthorized
  end.
Proof. done. Qed.

Lemma authMiddleware_refusal req response :
  authMiddleware rt req = inl response → response = unauthorized.
Proof.
  unfold authMiddleware. destruct (headerToken (authorization req)) as [token|].
  - case_bool_decide; [by intros [= <-]|].
    destruct (jwt_verify rt token); [done|by intros [= <-]].
  - by intros [= <-].
Qed.

(** X15.  The token of a request is what follows "Bearer ", up to the next
    space, or the whole header when it does not start with "Bearer ": a
    request without header, or with an empty token, is answered 401 without
    [jwt.verify] being asked; "Bearer t" and "t" are treated alike; and
    whatever follows a second space is ignored. *)
Theorem bearer_prefix_is_optional (t rest : string) (b : JsValue) :
  spaceFree t = true →
  let request h := {| authorization := h; body := b |} in
  authMiddleware rt (request None) = inl unauthorized
  ∧ authMiddleware rt (request (Some (String.append "Bearer " t))) =
      (if bool_decide (t = EmptyString) then inl unauthorized
       else match jwt_verify rt t with
            | Some u => inr u
            | None => inl unauthorized
            end)
  ∧ authMiddleware rt (request (Some (String.append "Bearer " (String.append t (String " " rest)))))
    = authMiddleware rt (request (Some (String.append "Bearer " t)))
  ∧ (String.prefix "Bearer " t = false →
     authMiddleware rt (request (Some t))
     = authMiddleware rt (request (Some (String.append "Bearer " t)))).
Proof.
  intros Ht request. subst request. split; [done|].
  assert (∀ s, upToSpace s = t →
            authMiddleware rt {| authorization := Some (String.append "Bearer " s); body := b |}
            = (if bool_decide (t = EmptyString) then inl unauthorized
               else match jwt_verify rt t with
                    | Some u => inr u
                    | None => inl unauthorized
                    end)) as Hbearer.
  { intros s Hs. rewrite authMiddleware_token, headerToken_Bearer. by rewrite Hs. }
  split; [apply Hbearer; by apply upToSpace_spaceFree|].
  split.
  { rewrite (Hbearer (String.append t (String " " rest))) by (by apply upToSpace_stops).
    symmetry. apply Hbearer. by apply upToSpace_spaceFree. }
  intros Hraw. rewrite (Hbearer t) by (by apply upToSpace_spaceFree).
  rewrite authMiddleware_token. unfold headerToken. by rewrite Hraw.
Qed.

(** X16.  POST /attendance/start replaces the session only for a verified
    teacher whose class id is cast to the [_id] of a stored class that names
    the teacher as its owner.  Every other request is answered 400, 401,
    403 or 404, or rejected because the class id cannot be cast, and leaves
    the server exactly as it was: an active session and its marks survive
    every refused start. *)
Theorem start_is_refused_without_effect
    (now : string) (req : Request) (σ : Server) :
  let result := post_attendance_start rt now req σ in
  (∃ u given c,
     authMiddleware rt req = inr u ∧ role u = TEACHER
     ∧ startAttendanceSchema_safeParse (body req) = Some given
     ∧ castObjectId rt given = Some (_id c) ∧ c ∈ Classes σ
     ∧ oid_toString <$> teacherId c = Some (req_userId u)
     ∧ (∃ response, fst result = inr response ∧ statusCode response = 200)
     ∧ snd result =
         set_activeSession
           (Some {| classId := oid_toString (_id c); startedAt := now;
                    attendance := ∅ |}) σ)
  ∨ (snd result = σ
     ∧ (fst result = inl CastError
        ∨ ∃ code error,
            fst result = inr (failure code error)
            ∧ code ∈ [400; 401; 403; 404])).
Proof.
  intros result. subst result. unfold post_attendance_start.
  destruct (authMiddleware rt req) as [response|u] eqn:Hauth.
  { apply authMiddleware_refusal in Hauth as ->. right. split; [reflexivity|].
    right. exists 401, "Unauthorized, token missing or invalid".
    split; [reflexivity|]. set_solver. }
  unfold teacherRoleMiddleware. case_bool_decide as Hrole.
  { right. split; [reflexivity|]. right.
    exists 403, "Forbidden, teacher access required". split; [reflexivity|]. set_solver. }
  assert (role u = TEACHER) as Hteacher by (by destruct (role u)).
  unfold attendance_start_route.
  destruct (startAttendanceSchema_safeParse (body req)) as [given|] eqn:Hbody.
  2:{ right. split; [reflexivity|]. right. exists 400, "Invalid request schema".
      split; [reflexivity|]. set_solver. }
  unfold bind, ClassModel_findById, update, ret. cbn beta.
  destruct (castObjectId rt given) as [o|] eqn:Hcast.
  2:{ right. split; [reflexivity|]. by left. }
  destruct (find (λ c, bool_decide (_id c = o)) (Classes σ)) as [c|] eqn:Hfind.
  2:{ right. split; [reflexivity|]. right. exists 404, "Class not found".
      split; [reflexivity|]. set_solver. }
  case_bool_decide as Howner.
  { right. split; [reflexivity|]. right. exists 403, "Forbidden, not class teacher".
    split; [reflexivity|]. set_solver. }
  left. exists u, given, c. apply find_some in Hfind as [Hin Hid].
  apply bool_decide_eq_true in Hid. subst o.
  repeat split; try done.
  - by apply list_elem_of_In.
  - eexists. split; reflexivity.
Qed.

End Access.

(** ** The routes on classes *)

Lemma someIdIs_elem s roster :
  someIdIs s roster = true ↔ s ∈ oid_toString <$> roster.
Proof.
  unfold someIdIs. rewrite existsb_exists, list_elem_of_fmap. split.
  - intros (o & Ho & E). apply String.eqb_eq in E. exists o.
    split; [done|]. by apply list_elem_of_In.
  - intros (o & -> & Ho). exists o. split; [by apply list_elem_of_In|].
    apply String.eqb_refl.
Qed.

Lemma find_fresh_last (p : ClassDoc → bool) l c :
  (∀ c', c' ∈ l → p c' = false) → p c = true → find p (l ++ [c]) = Some c.
Proof.
  induction l as [|c' l IH]; intros Hl Hc; simpl; [by rewrite Hc|].
  rewrite (Hl c') by left. apply IH; [|done]. intros c'' H. apply Hl. by right.
Qed.

Lemma find_saveClass o saved l c :
  find (λ c', bool_decide (_id c' = o)) l = Some c →
  _id saved = _id c →
  find (λ c', bool_decide (_id c' = o)) (saveClass saved l) = Some saved.
Proof.
  intros Hfind Hid.
  assert (_id c = o) as Ho
    by (apply find_some in Hfind as [_ H]; by apply bool_decide_eq_true in H).
  induction l as [|c' l IH]; simpl in *; [done|].
  destruct (decide (_id c' = o)) as [E|E].
  - rewrite bool_decide_eq_true_2 in Hfind by done. injection Hfind as ->.
    rewrite bool_decide_eq_true_2 by done. simpl.
    by rewrite bool_decide_eq_true_2 by congruence.
  - rewrite bool_decide_eq_false_2 in Hfind by done.
    rewrite bool_decide_eq_false_2 by congruence. simpl.
    rewrite bool_decide_eq_false_2 by done. by apply IH.
Qed.

Lemma saveClass_same o l c :
  find (λ c', bool_decide (_id c' = o)) l = Some c → saveClass c l = l.
Proof.
  intros Hfind.
  assert (_id c = o) as Ho
    by (apply find_some in Hfind as [_ H]; by apply bool_decide_eq_true in H).
  induction l as [|c' l IH]; simpl in *; [done|].
  destruct (decide (_id c' = o)) as [E|E].
  - rewrite bool_decide_eq_true_2 in Hfind by done. injection Hfind as ->.
    by rewrite bool_decide_eq_true_2.
  - rewrite bool_decide_eq_false_2 in Hfind by done.
    rewrite bool_decide_eq_false_2 by congruence. f_equal. by apply IH.
Qed.

Lemma set_Classes_same σ : set_Classes (Classes σ) σ = σ.
Proof. by destruct σ. Qed.

Section ClassRoutes.

Variable rt : Runtime.

Lemma findById_inv id σ classRoom :
  ClassModel_findById rt id σ = (inr classRoom, σ) →
  ∃ o, castObjectId rt id = Some o
       ∧ find (λ c, bool_decide (_id c = o)) (Classes σ) = classRoom.
Proof.
  unfold ClassModel_findById. destruct (castObjectId rt id) as [o|]; [|done].
  intros [= <-]. by exists o.
Qed.

Lemma findById_found id σ o classRoom :
  castObjectId rt id = Some o →
  find (λ c, bool_decide (_id c = o)) (Classes σ) = classRoom →
  ClassModel_findById rt id σ = (inr classRoom, σ).
Proof. intros Hc <-. unfold ClassModel_findById. by rewrite Hc. Qed.

Lemma authMiddleware_header req1 req2 :
  authorization req1 = authorization req2 →
  authMiddleware rt req1 = authMiddleware rt req2.
Proof. intros H. unfold authMiddleware. by rewrite H. Qed.

(** X17.  POST /class by a verified teacher stores a class with the new
    [_id], the requester as owner and an empty roster, and answers 201 with
    it; nothing else changes.  When the new [_id] is not in use and ids
    survive the cast, the same teacher can at once start a session on the
    class, which begins with an empty attendance object. *)
Theorem created_class_can_be_started
    (newId : ObjectId) (now name : string) (req startReq : Request)
    (u : User) (σ : Server) :
  authMiddleware rt req = inr u →
  role u = TEACHER →
  createClassSchema_safeParse (body req) = Some name →
  castObjectId rt (req_userId u) = Some (userId u) →
  let newClass := {| _id := newId; className := name;
                     teacherId := Some (userId u); studentIds := [] |} in
  let σ1 := set_Classes (Classes σ ++ [newClass]) σ in
  post_class rt newId req σ =
    (inr (Data 201 {| view_id := oid_toString newId; view_className := name;
                      view_teacherId := req_userId u; view_studentIds := [] |}),
     σ1)
  ∧ (authorization startReq = authorization req →
     body startReq = VObject [("classId", VString (oid_toString newId))] →
     castObjectId rt (oid_toString newId) = Some newId →
     (∀ c, c ∈ Classes σ → _id c ≠ newId) →
     snd (post_attendance_start rt now startReq σ1) =
       set_activeSession
         (Some {| classId := oid_toString newId; startedAt := now;
                  attendance := ∅ |}) σ1
     ∧ ∃ response,
         fst (post_attendance_start rt now startReq σ1) = inr response
         ∧ statusCode response = 200).
Proof.
  intros Hauth Hrole Hbody Hcast newClass σ1. split.
  - unfold post_class. rewrite Hauth. unfold teacherRoleMiddleware.
    rewrite Hrole. simpl. unfold class_route. rewrite Hbody.
    unfold bind, ClassModel_create. by rewrite Hcast.
  - intros Hheader Hstart Hround Hfresh.
    assert (ClassModel_findById rt (oid_toString newId) σ1
            = (inr (Some newClass), σ1)) as Hfind.
    { apply (findById_found _ _ newId); [done|]. simpl.
      apply find_fresh_last; [|by apply bool_decide_eq_true_2].
      intros c Hc. apply bool_decide_eq_false_2. by apply Hfresh. }
    assert (post_attendance_start rt now startReq σ1 =
            (inr {| statusCode := 200;
                    json := VObject
                      [("success", VBool true);
                       ("data", VObject
                          [("classId", VString (oid_toString newId));
                           ("startedAt", VString now)])] |},
             set_activeSession
               (Some {| classId := oid_toString newId; startedAt := now;
                        attendance := ∅ |}) σ1)) as Hrun.
    { unfold post_attendance_start.
      rewrite (authMiddleware_header startReq req Hheader), Hauth.
      unfold teacherRoleMiddleware. rewrite Hrole. simpl.
      unfold attendance_start_route. rewrite Hstart. simpl.
      unfold bind at 1. rewrite Hfind.
      by rewrite bool_decide_eq_false_2 by (intros E; by apply E). }
    rewrite Hrun. split; [done|]. eexists. split; reflexivity.
Qed.

(** What POST /class/:id/add-student does once its checks have passed. *)
Lemma add_student_run users classId req σ u c given o :
  authMiddleware rt req = inr u →
  role u = TEACHER →
  addStudentToClassSchema_safeParse (body req) = Some given →
  castObjectId rt given = Some o →
  ClassModel_findById rt classId σ = (inr (Some c), σ) →
  oid_toString <$> teacherId c = Some (req_userId u) →
  is_Some (userById users o) →
  let enrolled :=
    if someIdIs given (studentIds c) then c
    else {| _id := _id c; className := className c; teacherId := teacherId c;
            studentIds := studentIds c ++ [o] |} in
  let σ1 := set_Classes (saveClass enrolled (Classes σ)) σ in
  post_class_add_student rt users classId req σ
    = (inr (Data 200 (classView enrolled)), σ1)
  ∧ ClassModel_findById rt classId σ1 = (inr (Some enrolled), σ1).
Proof.
  intros Hauth Hrole Hbody Hcast Hfind Howner [student Hstudent] enrolled σ1.
  destruct (findById_inv _ _ _ Hfind) as (oc & Hoc & Hc).
  assert (_id enrolled = _id c) as Hid
    by (subst enrolled; by destruct (someIdIs given (studentIds c))).
  assert (ClassModel_findById rt classId σ1 = (inr (Some enrolled), σ1)) as Hfind1.
  { apply (findById_found _ _ oc); [done|]. simpl. by apply (find_saveClass _ _ _ c). }
  split; [|done].
  unfold post_class_add_student. rewrite Hauth. unfold teacherRoleMiddleware.
  rewrite Hrole. simpl. unfold add_student_route. rewrite Hbody.
  unfold bind at 1. rewrite Hfind.
  rewrite bool_decide_eq_false_2 by (intros E; by apply E).
  unfold bind at 1, UserModel_findById. rewrite Hcast, Hstudent.
  subst enrolled σ1. destruct (someIdIs given (studentIds c)) eqn:Hdup; simpl.
  - rewrite (saveClass_same oc _ _ Hc) in *. rewrite set_Classes_same in *.
    unfold bind, ret. simpl. by rewrite Hfind.
  - unfold bind at 1, update. cbn beta iota. unfold bind at 1.
    by rewrite Hfind1.
Qed.

(** X18.  Enrolling a student under the string of its ObjectId is
    idempotent: the first request adds the id to the roster unless it is
    there, a repeated request answers the same class and changes nothing,
    and a roster without duplicates stays without duplicates. *)
Theorem enrolling_is_idempotent
    (users : list UserDoc) (classId : string) (req : Request) (σ : Server)
    (u : User) (c : ClassDoc) (o : ObjectId) :
  authMiddleware rt req = inr u →
  role u = TEACHER →
  addStudentToClassSchema_safeParse (body req) = Some (oid_toString o) →
  castObjectId rt (oid_toString o) = Some o →
  ClassModel_findById rt classId σ = (inr (Some c), σ) →
  oid_toString <$> teacherId c = Some (req_userId u) →
  is_Some (userById users o) →
  let first := post_class_add_student rt users classId req σ in
  let second := post_class_add_student rt users classId req (snd first) in
  (∃ enrolled,
     fst first = inr (Data 200 (classView enrolled))
     ∧ fst second = inr (Data 200 (classView enrolled))
     ∧ oid_toString o ∈ view_studentIds (classView enrolled)
     ∧ (NoDup (oid_toString <$> studentIds c) →
        NoDup (view_studentIds (classView enrolled))))
  ∧ snd second = snd first
  ∧ (oid_toString o ∈ oid_toString <$> studentIds c → snd first = σ).
Proof.
  intros Hauth Hrole Hbody Hcast Hfind Howner Huser first second.
  destruct (add_student_run users classId req σ u c (oid_toString o) o
              Hauth Hrole Hbody Hcast Hfind Howner Huser) as [Hrun Hfind1].
  set (enrolled := if someIdIs (oid_toString o) (studentIds c) then c
                   else {| _id := _id c; className := className c;
                           teacherId := teacherId c;
                           studentIds := studentIds c ++ [o] |}) in *.
  set (σ1 := set_Classes (saveClass enrolled (Classes σ)) σ) in *.
  assert (oid_toString o ∈ oid_toString <$> studentIds enrolled) as Hin.
  { subst enrolled. destruct (someIdIs _ _) eqn:E.
    - by apply someIdIs_elem.
    - simpl. rewrite fmap_app. apply elem_of_app. right. simpl. left. }
  assert (teacherId enrolled = teacherId c) as Ht
    by (subst enrolled; by destruct (someIdIs _ _)).
  rewrite <- Ht in Howner.
  destruct (add_student_run users classId req σ1 u enrolled (oid_toString o) o
              Hauth Hrole Hbody Hcast Hfind1 Howner Huser) as [Hrun2 _].
  apply someIdIs_elem in Hin as Hdup. rewrite Hdup in Hrun2.
  destruct (findById_inv _ _ _ Hfind1) as (oc & Hoc & Hc1).
  rewrite (saveClass_same oc _ _ Hc1), set_Classes_same in Hrun2.
  subst first second. rewrite Hrun. cbn [fst snd]. rewrite Hrun2. cbn [fst snd].
  split; [|split; [done|]].
  - exists enrolled. split; [done|]. split; [done|]. split; [done|].
    intros Hnodup. subst enrolled. unfold classView. simpl.
    destruct (someIdIs _ _) eqn:E; [done|]. simpl. rewrite fmap_app.
    apply NoDup_app. split; [done|]. split; [|apply NoDup_singleton].
    intros s Hs [->|[]%elem_of_nil]%elem_of_cons.
    apply someIdIs_elem in Hs. congruence.
  - intros Halready. apply someIdIs_elem in Halready.
    subst σ1 enrolled. rewrite Halready.
    destruct (findById_inv _ _ _ Hfind) as (oc' & _ & Hc).
    by rewrite (saveClass_same oc' _ _ Hc), set_Classes_same.
Qed.

(** X19.  The duplicate test of add-student compares strings.  A student
    who is on the roster, named by a string that is cast to the same
    ObjectId but is not the string of any roster id, is pushed again: the
    saved roster holds that id twice. *)
Theorem other_spelling_enrols_twice
    (users : list UserDoc) (classId : string) (req : Request) (σ : Server)
    (u : User) (c : ClassDoc) (given : string) (o : ObjectId) :
  authMiddleware rt req = inr u →
  role u = TEACHER →
  addStudentToClassSchema_safeParse (body req) = Some given →
  castObjectId rt given = Some o →
  ClassModel_findById rt classId σ = (inr (Some c), σ) →
  oid_toString <$> teacherId c = Some (req_userId u) →
  is_Some (userById users o) →
  o ∈ studentIds c →
  given ∉ oid_toString <$> studentIds c →
  let enrolled := {| _id := _id c; className := className c;
                     teacherId := teacherId c;
                     studentIds := studentIds c ++ [o] |} in
  post_class_add_student rt users classId req σ
    = (inr (Data 200 (classView enrolled)),
       set_Classes (saveClass enrolled (Classes σ)) σ)
  ∧ ¬ NoDup (studentIds enrolled).
Proof.
  intros Hauth Hrole Hbody Hcast Hfind Howner Huser Hin Hspell enrolled.
  destruct (add_student_run users classId req σ u c given o
              Hauth Hrole Hbody Hcast Hfind Howner Huser) as [Hrun _].
  assert (someIdIs given (studentIds c) = false) as Hdup.
  { destruct (someIdIs given (studentIds c)) eqn:E; [|done].
    by apply someIdIs_elem in E. }
  rewrite Hdup in Hrun. split; [done|].
  simpl. intros Hnodup. apply NoDup_app in Hnodup as (_ & Hdisj & _).
  apply (Hdisj o Hin). left.
Qed.

End ClassRoutes.

Lemma find_none_all {A} (p : A → bool) l :
  (∀ x, x ∈ l → p x = false) → find p l = None.
Proof.
  induction l as [|x l IH]; intros H; simpl; [done|].
  rewrite (H x) by left. apply IH. intros y Hy. apply H. by right.
Qed.

Lemma find_app_skip {A} (p : A → bool) l1 l2 :
  (∀ x, x ∈ l1 → p x = false) → find p (l1 ++ l2) = find p l2.
Proof.
  induction l1 as [|x l IH]; intros H; simpl; [done|].
  rewrite (H x) by left. apply IH. intros y Hy. apply H. by right.
Qed.

Lemma Forall2_pick_r {A B} (R : A → B → Prop) l k y :
  Forall2 R l k → y ∈ k → ∃ x, x ∈ l ∧ R x y.
Proof.
  induction 1 as [|x y' l k HR HF IH]; intros Hy.
  - by apply elem_of_nil in Hy.
  - apply elem_of_cons in Hy as [->|Hy].
    + exists x. split; [left|done].
    + destruct (IH Hy) as (x' & Hx' & HR'). exists x'. split; [by right|done].
Qed.

(** A request that is refused leaves every part of the server as it was. *)
Ltac refused := by (repeat split; try left).

Section StoredAttendance.

Variable rt : Runtime.

(** X20.  POST /class/:id/add-student never touches the session, the
    sockets or the stored attendance, and it changes a roster only for a
    verified teacher who owns the class and names an existing user not yet
    on the roster under that string; every other request leaves the server
    exactly as it was. *)
Theorem only_the_owner_enrols
    (users : list UserDoc) (classId : string) (req : Request) (σ : Server) :
  let σ' := snd (post_class_add_student rt users classId req σ) in
  activeSession σ' = activeSession σ ∧ allWs σ' = allWs σ
  ∧ Attendances σ' = Attendances σ ∧ wire σ' = wire σ
  ∧ (σ' = σ
     ∨ ∃ u c given o,
         authMiddleware rt req = inr u ∧ role u = TEACHER
         ∧ castObjectId rt classId = Some (_id c) ∧ c ∈ Classes σ
         ∧ oid_toString <$> teacherId c = Some (req_userId u)
         ∧ addStudentToClassSchema_safeParse (body req) = Some given
         ∧ castObjectId rt given = Some o
         ∧ is_Some (userById users o)
         ∧ (given ∉ oid_toString <$> studentIds c)
         ∧ Classes σ' =
             saveClass {| _id := _id c; className := className c;
                          teacherId := teacherId c;
                          studentIds := studentIds c ++ [o] |} (Classes σ)).
Proof.
  intros σ'. subst σ'. unfold post_class_add_student.
  destruct (authMiddleware rt req) as [response|u] eqn:Hauth; [refused|].
  unfold teacherRoleMiddleware. case_bool_decide as Hrole; [refused|].
  assert (role u = TEACHER) as Hteacher by (by destruct (role u)).
  unfold add_student_route.
  destruct (addStudentToClassSchema_safeParse (body req)) as [given|] eqn:Hbody;
    [|refused].
  unfold bind, ClassModel_findById, UserModel_findById, update, ret, throw.
  cbn beta.
  destruct (castObjectId rt classId) as [oc|] eqn:Hoc; [|refused].
  destruct (find (λ c, bool_decide (_id c = oc)) (Classes σ)) as [c|] eqn:Hc;
    [|refused].
  case_bool_decide as Howner; [refused|].
  destruct (castObjectId rt given) as [o|] eqn:Hgiven; [|refused].
  destruct (userById users o) as [student|] eqn:Hstudent; [|refused].
  destruct (someIdIs given (studentIds c)) eqn:Hdup; cbn [negb].
  - rewrite Hc. refused.
  - destruct (find _ (Classes (set_Classes _ σ))).
    all: repeat (split; [done|]).
    all: right; exists u, c, given, o.
    all: apply find_some in Hc as [Hin Hid]; apply bool_decide_eq_true in Hid.
    all: subst oc; repeat split; try done; try (by apply list_elem_of_In).
    all: try (by destruct (decide (oid_toString <$> teacherId c
                                   = Some (req_userId u)))).
    all: intros Hs; apply someIdIs_elem in Hs; congruence.
Qed.

(** X21.  GET /class/:id shows a class to its owner and to the students of
    its roster, and to nobody else (403); it lists one student per roster
    id, in roster order and under that id, also when the user document is
    gone; it changes nothing. *)
Theorem class_is_shown_to_owner_and_roster
    (users : list UserDoc) (classId : string) (req : Request) (σ : Server)
    (u : User) (c : ClassDoc) :
  authMiddleware rt req = inr u →
  ClassModel_findById rt classId σ = (inr (Some c), σ) →
  let result := get_class rt users classId req σ in
  snd result = σ
  ∧ ((oid_toString <$> teacherId c = Some (req_userId u)
      ∨ req_userId u ∈ oid_toString <$> studentIds c) →
     ∃ detail,
       fst result = inr (Data 200 detail)
       ∧ detail_id detail = oid_toString (_id c)
       ∧ student_id <$> detail_students detail = oid_toString <$> studentIds c)
  ∧ (oid_toString <$> teacherId c ≠ Some (req_userId u) →
     req_userId u ∉ oid_toString <$> studentIds c →
     fst result = inr (Ended (failure 403 "Forbidden, not class teacher"))).
Proof.
  intros Hauth Hfind result. subst result. unfold get_class. rewrite Hauth.
  unfold bind. rewrite Hfind.
  split; [by destruct (_ || _)|]. split.
  - intros Hallowed.
    assert (bool_decide (oid_toString <$> teacherId c = Some (req_userId u))
            || someIdIs (req_userId u) (studentIds c) = true) as ->.
    { apply orb_true_iff. destruct Hallowed as [H|H];
        [left; by apply bool_decide_eq_true_2|right; by apply someIdIs_elem]. }
    eexists. split; [done|]. split; [done|]. simpl.
    rewrite <- list_fmap_compose. apply list_fmap_ext. intros i o _. simpl.
    unfold studentView. destruct (userById users o) as [student|] eqn:E; [|done].
    simpl. apply find_some in E as [_ E]. apply bool_decide_eq_true in E.
    by rewrite E.
  - intros Howner Hroster.
    assert (bool_decide (oid_toString <$> teacherId c = Some (req_userId u))
            || someIdIs (req_userId u) (studentIds c) = false) as ->; [|done].
    apply orb_false_iff. split; [by apply bool_decide_eq_false_2|].
    destruct (someIdIs _ _) eqn:E; [|done]. by apply someIdIs_elem in E.
Qed.

(** X22.  GET /class/:id/my-attendance reads the stored documents only:
    its answer is the same whatever the live session is (none, or any
    session with any marks), and it changes nothing. *)
Theorem stored_attendance_ignores_the_live_session
    (classId : string) (req : Request) (σ : Server) (live : option Session) :
  fst (get_my_attendance rt classId req (set_activeSession live σ))
    = fst (get_my_attendance rt classId req σ)
  ∧ snd (get_my_attendance rt classId req σ) = σ.
Proof.
  unfold get_my_attendance. destruct (authMiddleware rt req) as [r|u]; [done|].
  unfold bind, ClassModel_findById, AttendanceModel_findOne. simpl.
  destruct (castObjectId rt classId) as [oc|]; [|done].
  destruct (find _ (Classes σ)) as [c|]; [|done].
  destruct (negb _); [done|].
  destruct (castObjectId rt (req_userId u)); done.
Qed.

(** X23.  What Finalize stores is what the student then reads.  After a
    DONE whose batch was stored, a student of the roster for whom the
    collection held no document of that class, and whose id was marked
    under no other string, gets from GET /class/:id/my-attendance the 200
    answer with the status of the finalized attendance object. *)
Theorem finalized_status_is_read_back
    (teacher : WebSocket) (σ : Server) (session : Session) (c : ClassDoc)
    (docs : list AttendanceDoc) (req : Request) (u : User) :
  role (user teacher) = TEACHER →
  activeSession σ = Some session →
  ClassModel_findById rt (classId session) σ = (inr (Some c), σ) →
  let final := markUnmarkedAbsent (attendance session) (studentIds c) in
  mapM (attendanceSchema_cast rt) (attendanceRecords (classId session) final)
    = Some docs →
  authMiddleware rt req = inr u →
  userId u ∈ studentIds c →
  (∀ d, d ∈ Attendances σ →
     castObjectId rt (classId session) = Some (doc_classId d) →
     castObjectId rt (req_userId u) ≠ Some (doc_studentId d)) →
  (∀ k v, final !! k = Some v →
     castObjectId rt k = castObjectId rt (req_userId u) → k = req_userId u) →
  let σ1 := deliver rt σ (teacher, eventFrame "DONE") in
  ∃ v, final !! req_userId u = Some v ∧ v ≠ EmptyString
       ∧ get_my_attendance rt (classId session) req σ1
         = (inr (Data 200 {| my_classId := classId session;
                             my_status := Some v |}), σ1).
Proof.
  intros Hrole Hs Hfind final Hbatch Hauth Hroster Hold Hspell σ1.
  destruct (markUnmarkedAbsent_nonempty (studentIds c) (attendance session)
              (userId u) Hroster) as (v & Hv & Hne).
  fold final in Hv. fold (req_userId u) in Hv.
  exists v. split; [done|]. split; [done|].
  (* the server after DONE *)
  pose proof (finalizeSession_run rt σ session (Some c) Hfind) as Hrun.
  simpl in Hrun. fold final in Hrun. rewrite Hbatch in Hrun.
  assert (Classes σ1 = Classes σ ∧ Attendances σ1 = Attendances σ ++ docs)
    as [Hclasses Hstored].
  { subst σ1. unfold deliver. cbn [fst snd].
    rewrite (done_run rt _ _ _ Hrole Hs), Hrun.
    by destruct (broadcast_frame rt (doneMessage (summarize final))
      (set_activeSession None (set_Attendances (Attendances σ ++ docs) σ)))
      as (_ & _ & -> & ->). }
  destruct (findById_inv rt _ _ _ Hfind) as (oc & Hoc & Hc).
  assert (ClassModel_findById rt (classId session) σ1 = (inr (Some c), σ1))
    as Hfind1 by (apply (findById_found rt _ _ oc); [done|by rewrite Hclasses]).
  (* the document of the student *)
  apply mapM_Some in Hbatch.
  destruct (Forall2_pick _ _ _ _ Hbatch
              (attendanceRecords_entry (classId session) final _ _ Hv))
    as (d & Hd & Hcast).
  apply attendanceSchema_cast_Some in Hcast as (_ & Hst & Hdc & Hds).
  simpl in Hst, Hdc, Hds.
  set (p := λ d' : AttendanceDoc,
              bool_decide (doc_classId d' = oc)
              && bool_decide (doc_studentId d' = doc_studentId d)).
  assert (find p (Attendances σ1) = Some d ∨
          ∃ d', find p (Attendances σ1) = Some d' ∧ doc_status d' = v) as Hfound.
  { right. rewrite Hstored, find_app_skip.
    - destruct (find p docs) as [d'|] eqn:E.
      + exists d'. split; [done|]. apply find_some in E as [Hin' Hp].
        apply list_elem_of_In in Hin'.
        destruct (Forall2_pick_r _ _ _ _ Hbatch Hin') as (r & Hr & Hcast').
        apply attendanceSchema_cast_Some in Hcast' as (_ & Hst' & _ & Hds').
        apply attendanceRecords_inv in Hr as [_ Hentry].
        apply andb_true_iff in Hp as [_ Hp]. apply bool_decide_eq_true in Hp.
        assert (rec_studentId r = req_userId u) as Hkey.
        { apply (Hspell _ _ Hentry). rewrite Hds', Hds. by rewrite Hp. }
        rewrite Hkey, Hv in Hentry. congruence.
      + exfalso. apply list_elem_of_In in Hd.
        pose proof (find_none _ _ E d Hd) as Hp.
        assert (p d = true) as Hp'; [|congruence].
        subst p. simpl. apply andb_true_iff.
        split; apply bool_decide_eq_true_2; congruence.
    - intros d' Hd'. subst p. simpl. apply andb_false_iff.
      destruct (decide (doc_classId d' = oc)) as [E|E];
        [right|left; by apply bool_decide_eq_false_2].
      apply bool_decide_eq_false_2. intros E'.
      apply (Hold d' Hd'); congruence. }
  assert (∃ d', find p (Attendances σ1) = Some d' ∧ doc_status d' = v)
    as (d' & Hd' & Hst').
  { destruct Hfound as [H|H]; [|done]. exists d. split; [done|congruence]. }
  unfold get_my_attendance. rewrite Hauth. unfold bind at 1. rewrite Hfind1.
  assert (someIdIs (req_userId u) (studentIds c) = true) as ->.
  { apply someIdIs_elem. unfold req_userId. apply list_elem_of_fmap.
    by exists (userId u). }
  simpl. unfold bind, AttendanceModel_findOne. rewrite Hoc, Hds.
  fold p. rewrite Hd'. simpl. by rewrite Hst'.
Qed.

End StoredAttendance.

Section LateEnrolment.

Variable rt : Runtime.

(** X24.  The roster is read at Finalize, not at start.  A student
    enrolled by add-student while the session of the class is active leaves
    the session as it is, and the DONE that follows finds the new roster:
    if the student has no mark, the finalized attendance object gives the
    student "absent", and that is what a stored batch and the DONE
    broadcast count. *)
Theorem late_enrolment_is_finalized
    (users : list UserDoc) (req : Request) (σ : Server) (session : Session)
    (u : User) (c : ClassDoc) (o : ObjectId) (teacher : WebSocket) :
  activeSession σ = Some session →
  authMiddleware rt req = inr u →
  role u = TEACHER →
  addStudentToClassSchema_safeParse (body req) = Some (oid_toString o) →
  castObjectId rt (oid_toString o) = Some o →
  ClassModel_findById rt (classId session) σ = (inr (Some c), σ) →
  oid_toString <$> teacherId c = Some (req_userId u) →
  is_Some (userById users o) →
  role (user teacher) = TEACHER →
  attendance session !! oid_toString o = None →
  let σ1 := snd (post_class_add_student rt users (classId session) req σ) in
  activeSession σ1 = Some session
  ∧ ∃ enrolled,
      ClassModel_findById rt (classId session) σ1 = (inr (Some enrolled), σ1)
      ∧ finalAttendance session (Some enrolled) !! oid_toString o = Some "absent"
      ∧ ∀ docs,
          mapM (attendanceSchema_cast rt)
               (attendanceRecords (classId session)
                  (finalAttendance session (Some enrolled))) = Some docs →
          onMessage rt teacher (eventFrame "DONE") σ1 =
            broadcast rt
              (doneMessage (summarize (finalAttendance session (Some enrolled))))
              (set_activeSession None
                 (set_Attendances (Attendances σ1 ++ docs) σ1)).
Proof.
  intros Hs Hauth Hrole Hbody Hcast Hfind Howner Huser Hteacher Hnone σ1.
  destruct (add_student_run rt users (classId session) req σ u c
              (oid_toString o) o Hauth Hrole Hbody Hcast Hfind Howner Huser)
    as [Hrun Hfind1].
  set (enrolled := if someIdIs (oid_toString o) (studentIds c) then c
                   else {| _id := _id c; className := className c;
                           teacherId := teacherId c;
                           studentIds := studentIds c ++ [o] |}) in *.
  assert (σ1 = set_Classes (saveClass enrolled (Classes σ)) σ) as Hσ1
    by (subst σ1; by rewrite Hrun).
  assert (activeSession σ1 = Some session) as Hs1 by (by rewrite Hσ1).
  split; [done|]. exists enrolled. rewrite <- Hσ1 in Hfind1.
  split; [done|]. split.
  - assert (∃ o', o' ∈ studentIds enrolled ∧ oid_toString o' = oid_toString o)
      as (o' & Hin & Ho').
    { subst enrolled. destruct (someIdIs _ _) eqn:E.
      - apply someIdIs_elem, list_elem_of_fmap in E as (o' & E & Hin). eauto.
      - exists o. split; [|done]. simpl. apply elem_of_app. right. left. }
    simpl. rewrite <- Ho'. apply markUnmarkedAbsent_defaults; [done|].
    intros v. rewrite Ho', Hnone. done.
  - intros docs Hbatch. rewrite (done_run rt _ _ _ Hteacher Hs1).
    pose proof (finalizeSession_run rt σ1 session (Some enrolled) Hfind1) as Hfin.
    simpl in Hfin. simpl in Hbatch. rewrite Hbatch in Hfin. exact Hfin.
Qed.

End LateEnrolment.

(** * The further properties on concrete runs *)

Lemma connection_with_bad_token_is_refused_witness :
  let result := onConnection runtime0 7 Delivers (Some "forged-token")
                  (serverWith None [teacherWs]) in
  fst result = inr None
  ∧ allWs (snd result) = [teacherWs]
  ∧ wire (snd result)
    = [(7, render (errorMessage "Unauthorized or invalid token"))].
Proof.
  intros result.
  destruct (connection_with_bad_token_is_refused runtime0 7 Delivers
              (Some "forged-token") (serverWith None [teacherWs]) eq_refl)
    as (H1 & H2 & _ & _ & _ & H3).
  split; [exact H1|]. split; [exact H2|exact H3].
Defined.

Lemma connection_is_registered_last_witness :
  let σ := serverWith None [teacherWs] in
  let σ' := snd (onConnection runtime0 2 Delivers (Some "student-token") σ) in
  allWs σ' = [teacherWs; studentWs]
  ∧ wire σ' = [].
Proof.
  intros σ σ'.
  destruct (connection_is_registered_last runtime0 2 Delivers "student-token"
              student100 (summaryMessage (summarize ∅)) σ eq_refl)
    as (H1 & H2 & _).
  split; [|exact H2]. subst σ'. rewrite H1. reflexivity.
Defined.

Lemma close_unregisters_the_socket_witness :
  let σ := serverWith None [teacherWs; studentWs] in
  allWs (snd (onClose studentWs σ)) = [teacherWs]
  ∧ snd (onClose closedWs σ) = σ.
Proof.
  intros σ.
  destruct (close_unregisters_the_socket runtime0 closedWs
              (summaryMessage (summarize ∅)) σ) as (_ & _ & _ & H & _).
  split; [reflexivity|]. apply H.
  intros w Hw. repeat (apply elem_of_cons in Hw as [->|Hw]; [simpl; lia|]).
  by apply elem_of_nil in Hw.
Defined.

Lemma connect_then_close_restores_witness :
  let σ := serverWith (Some (sessionOf ∅)) [teacherWs] in
  snd (onClose studentWs
         (snd (onConnection runtime0 2 Delivers (Some "student-token") σ))) = σ.
Proof.
  intros σ.
  apply (connect_then_close_restores runtime0 2 Delivers "student-token"
           student100 σ eq_refl).
  intros w Hw. repeat (apply elem_of_cons in Hw as [->|Hw]; [simpl; lia|]).
  by apply elem_of_nil in Hw.
Defined.

Lemma frames_keep_the_session_identity_witness :
  let σ := serverWith None [teacherWs; studentWs] in
  activeSession (foldl (deliver runtime0) σ
                   [(teacherWs, markFrame presentMark);
                    (teacherWs, eventFrame "DONE")]) = None.
Proof.
  intros σ.
  destruct (frames_keep_the_session_identity runtime0
              [(teacherWs, markFrame presentMark); (teacherWs, eventFrame "DONE")]
              σ) as [H _].
  exact (H eq_refl).
Defined.

Lemma unusable_frame_only_notifies_sender_witness :
  let σ := serverWith (Some (sessionOf ∅)) [teacherWs; studentWs] in
  let σ' := snd (onMessage runtime0 studentWs (eventFrame "PING") σ) in
  activeSession σ' = Some (sessionOf ∅)
  ∧ wire σ' = [(2, render (errorMessage "Unknown event"))].
Proof.
  intros σ σ'.
  destruct (unusable_frame_only_notifies_sender runtime0 studentWs
              (eventFrame "PING") σ) as (_ & H1 & _ & _ & _ & H2).
  - right. eexists. split; reflexivity.
  - split; [exact H1|exact H2].
Defined.

Lemma wrong_role_is_refused_witness :
  let σ := serverWith (Some (sessionOf ∅)) [teacherWs; studentWs] in
  let σ' := snd (onMessage runtime0 teacherWs (eventFrame "MY_ATTENDANCE") σ) in
  activeSession σ' = Some (sessionOf ∅)
  ∧ wire σ' = [(1, render (errorMessage "Forbidden, student event only"))].
Proof.
  intros σ σ'.
  destruct (wrong_role_is_refused runtime0 teacherWs
              {| event := "MY_ATTENDANCE"; data := None |} σ STUDENT eq_refl)
    as (_ & H1 & _ & _ & _ & H2).
  - discriminate.
  - split; [exact H1|exact H2].
Defined.

Lemma summary_and_self_status_are_read_only_witness :
  let session := sessionOf {[ s100 := "present" ]} in
  let σ := serverWith (Some session) [teacherWs; studentWs] in
  activeSession (deliver runtime0 σ (teacherWs, eventFrame "TODAY_SUMMARY"))
    = Some session.
Proof.
  intros session σ.
  destruct (summary_and_self_status_are_read_only runtime0 teacherWs
              {| event := "TODAY_SUMMARY"; data := None |} σ) as (H & _).
  - by left.
  - exact H.
Defined.

Lemma finalize_writes_what_it_counts_witness :
  let session := sessionOf {[ s100 := "present" ]} in
  let σ := serverWith (Some session) [teacherWs; studentWs] in
  let s := summarize (finalAttendance session (Some c101)) in
  present s + absent s = total s ∧ total s = 2.
Proof.
  intros session σ s.
  eassert (mapM (attendanceSchema_cast runtime0)
             (attendanceRecords (classId session)
                (finalAttendance session (Some c101))) = Some _) as Hbatch
    by (vm_compute; reflexivity).
  destruct (finalize_writes_what_it_counts runtime0 teacherWs σ session
              (Some c101) _ eq_refl eq_refl eq_refl Hbatch)
    as (_ & H1 & H2 & _).
  split; [exact H2|]. subst s. rewrite <- H1. reflexivity.
Defined.

Lemma finalize_of_an_empty_session_witness :
  let σ := {| activeSession := Some (sessionOf ∅); allWs := [teacherWs];
              Classes := []; Attendances := []; wire := [] |} in
  onMessage runtime0 teacherWs (eventFrame "DONE") σ =
    broadcast runtime0 (doneMessage {| present := 0; absent := 0; total := 0 |})
      (set_activeSession None σ).
Proof.
  intros σ.
  apply (finalize_of_an_empty_session runtime0 teacherWs σ (sessionOf ∅) None
           eq_refl eq_refl eq_refl eq_refl).
  intros c Hc. discriminate.
Defined.

Lemma second_finalize_writes_nothing_witness :
  let session := sessionOf {[ s100 := "present" ]} in
  let σ := serverWith (Some session) [teacherWs; studentWs] in
  let σ2 := foldl (deliver runtime0) σ
              [(teacherWs, eventFrame "DONE"); (teacherWs, eventFrame "DONE")] in
  length (Attendances σ2) = 2 ∧ activeSession σ2 = None.
Proof.
  intros session σ σ2.
  eassert (mapM (attendanceSchema_cast runtime0)
             (attendanceRecords (classId session)
                (finalAttendance session (Some c101))) = Some _) as Hbatch
    by (vm_compute; reflexivity).
  destruct (second_finalize_writes_nothing runtime0 teacherWs teacherWs σ session
              (Some c101) _ eq_refl eq_refl eq_refl eq_refl Hbatch)
    as (_ & _ & _ & H1 & H2).
  split; [|exact H2]. subst σ2. simpl foldl. rewrite H1. reflexivity.
Defined.

Lemma defaulting_completes_the_roster_witness :
  ∃ v, markUnmarkedAbsent {[ s100 := EmptyString ]} (studentIds c101) !! s101
       = Some v ∧ v ≠ EmptyString.
Proof.
  destruct (defaulting_completes_the_roster {[ s100 := EmptyString ]}
              (studentIds c101)) as (_ & _ & H & _).
  apply (H 257%N). right. left.
Defined.

Lemma bearer_prefix_is_optional_witness :
  authMiddleware runtime0
    {| authorization := Some (String.append "Bearer " "teacher-token");
       body := noBody |} = inr teacher1
  ∧ authMiddleware runtime0
      {| authorization := Some "teacher-token"; body := noBody |}
    = authMiddleware runtime0
        {| authorization := Some (String.append "Bearer " "teacher-token");
           body := noBody |}.
Proof.
  destruct (bearer_prefix_is_optional runtime0 "teacher-token" "ignored" noBody
              eq_refl) as (_ & H1 & _ & H2).
  split; [rewrite H1; reflexivity|]. apply H2. reflexivity.
Defined.

Lemma created_class_can_be_started_witness :
  let req := asTeacher (VObject [("className", VString "Chemistry 103")]) in
  let startReq := asTeacher (VObject [("classId", VString (oid_toString 4099%N))]) in
  let σ := schoolWith None in
  let σ1 := snd (post_class runtime0 4099%N req σ) in
  length (Classes σ1) = 3
  ∧ activeSession
      (snd (post_attendance_start runtime0 "2025-03-12T09:00:00.000Z" startReq σ1))
    = Some {| classId := oid_toString 4099%N;
              startedAt := "2025-03-12T09:00:00.000Z"; attendance := ∅ |}.
Proof.
  intros req startReq σ σ1.
  destruct (created_class_can_be_started runtime0 4099%N
              "2025-03-12T09:00:00.000Z" "Chemistry 103" req startReq teacher1 σ
              eq_refl eq_refl eq_refl eq_refl) as [H1 H2].
  assert (σ1 = set_Classes
                 (Classes σ ++ [{| _id := 4099%N; className := "Chemistry 103";
                                   teacherId := Some (userId teacher1);
                                   studentIds := [] |}]) σ) as Hσ1
    by (subst σ1; by rewrite H1).
  split; [by rewrite Hσ1|].
  rewrite Hσ1. destruct H2 as [H2 _]; [reflexivity|reflexivity|reflexivity| |].
  - intros c Hc. repeat (apply elem_of_cons in Hc as [->|Hc]; [simpl; lia|]).
    by apply elem_of_nil in Hc.
  - rewrite H2. reflexivity.
Defined.

Lemma enrolling_is_idempotent_witness :
  let req := enrolRequest s10a in
  let first := post_class_add_student runtime0 users0 (classIdOf c101) req
                 (schoolWith None) in
  let second := post_class_add_student runtime0 users0 (classIdOf c101) req
                  (snd first) in
  snd second = snd first.
Proof.
  intros req first second.
  destruct (enrolling_is_idempotent runtime0 users0 (classIdOf c101) req
              (schoolWith None) teacher1 c101 266%N
              eq_refl eq_refl eq_refl eq_refl eq_refl eq_refl) as (_ & H & _).
  - vm_compute. eauto.
  - exact H.
Defined.

Lemma other_spelling_enrols_twice_witness :
  let req := enrolRequest s10A in
  let σ' := snd (post_class_add_student runtime0 users0 (classIdOf c102) req
                   (schoolWith None)) in
  s10A ≠ s10a
  ∧ Classes σ' = [c101; {| _id := 4098%N; className := "Physics 102";
                           teacherId := Some 1%N;
                           studentIds := [266%N; 266%N] |}].
Proof.
  intros req σ'.
  destruct (other_spelling_enrols_twice runtime0 users0 (classIdOf c102) req
              (schoolWith None) teacher1 c102 s10A 266%N
              eq_refl eq_refl eq_refl eq_refl eq_refl eq_refl) as [H _].
  - vm_compute. eauto.
  - left.
  - intros Hin. apply elem_of_cons in Hin as [Hin|Hin]; [discriminate|].
    by apply elem_of_nil in Hin.
  - split; [discriminate|]. subst σ'. rewrite H. reflexivity.
Defined.

Lemma class_is_shown_to_owner_and_roster_witness :
  let result := get_class runtime0 users0 (classIdOf c101) (asStudent noBody)
                  (schoolWith None) in
  ∃ detail,
    fst result = inr (Data 200 detail)
    ∧ student_id <$> detail_students detail = [s100; s101].
Proof.
  intros result.
  destruct (class_is_shown_to_owner_and_roster runtime0 users0 (classIdOf c101)
              (asStudent noBody) (schoolWith None) student100 c101
              eq_refl eq_refl) as (_ & H & _).
  destruct H as (detail & H1 & _ & H2).
  - right. left.
  - exists detail. split; [exact H1|exact H2].
Defined.

Lemma finalized_status_is_read_back_witness :
  let session := sessionOf {[ s101 := "present" ]} in
  let σ := schoolWith (Some session) in
  let σ1 := deliver runtime0 σ (teacherWs, eventFrame "DONE") in
  get_my_attendance runtime0 (classId session) (asStudent noBody) σ1
  = (inr (Data 200 {| my_classId := classId session;
                      my_status := Some "absent" |}), σ1).
Proof.
  intros session σ σ1.
  eassert (mapM (attendanceSchema_cast runtime0)
             (attendanceRecords (classId session)
                (markUnmarkedAbsent (attendance session) (studentIds c101)))
           = Some _) as Hbatch by (vm_compute; reflexivity).
  destruct (finalized_status_is_read_back runtime0 teacherWs σ session c101 _
              (asStudent noBody) student100 eq_refl eq_refl eq_refl Hbatch
              eq_refl) as (v & Hv & _ & H).
  - left.
  - intros d Hd. exfalso. exact (not_elem_of_nil d Hd).
  - intros k v Hk Hcast.
    apply elem_of_map_to_list in Hk. vm_compute in Hk.
    repeat (apply elem_of_cons in Hk as [Hk|Hk];
            [injection Hk as -> ->; vm_compute in Hcast;
             first [discriminate Hcast|vm_compute; reflexivity]|]).
    exfalso. exact (not_elem_of_nil _ Hk).
  - vm_compute in Hv. injection Hv as <-. exact H.
Defined.

Lemma late_enrolment_is_finalized_witness :
  let session := sessionOf ∅ in
  let σ := schoolWith (Some session) in
  let σ1 := snd (post_class_add_student runtime0 users0 (classId session)
                   (enrolRequest s10a) σ) in
  activeSession σ1 = Some session
  ∧ ∃ enrolled,
      ClassModel_findById runtime0 (classId session) σ1
        = (inr (Some enrolled), σ1)
      ∧ finalAttendance session (Some enrolled) !! s10a = Some "absent".
Proof.
  intros session σ σ1.
  destruct (late_enrolment_is_finalized runtime0 users0 (enrolRequest s10a) σ
              session teacher1 c101 266%N teacherWs
              eq_refl eq_refl eq_refl eq_refl eq_refl eq_refl eq_refl)
    as (H1 & enrolled & H2 & H3 & _).
  - vm_compute. eauto.
  - reflexivity.
  - reflexivity.
  - split; [exact H1|]. exists enrolled. split; [exact H2|exact H3].
Defined.
